(** * Clipia front end: a shallow embedding of the page scripts

    The development follows the four scripts under [static/js]:
    [tab_navigation.js], [file_upload.js], [video_trimming.js] and [app.js].
    A page is a document (the elements in tree order), a heap holding the
    [currentVideoFilename] variable of every closure the scripts create, the
    event listeners registered so far, the fetch promise chains still in
    flight, and the trace of [alert] and [fetch] calls.

    [console.*] calls and [event.preventDefault()] touch none of these and
    are left out, but for the string conversion of a logged template literal,
    which can throw.

    The document lists the elements the page was loaded with. A write to
    [textContent] or [innerHTML] is recorded as the string written: the nodes
    a browser builds from it are not listed, so that the document is the
    page's as long as the buttons hold text only and the name and the type of
    the selected files are plain text. The properties of single handlers and
    promise chains are stated for every document and do not depend on this.

    The routes the scripts call are served by an asset store and a trim
    engine that the specification describes; they are modelled from it in
    [AssetStore] and [TrimEngine]. *)

From Stdlib Require Import ZArith SpecFloat.
From stdpp Require Import base option list strings pretty gmap.

Open Scope string_scope.
#[local] Set Warnings "-register-all".

(** ** JavaScript numbers and JSON values *)

(** A JavaScript number is an IEEE 754 binary64 value, in the canonical form
    that [SFcompare] compares as numbers. *)
Definition number : Type := spec_float.

Definition isNaN (x : number) : bool :=
  match x with S754_nan => true | _ => false end.

(** [a < b] : false as soon as one side is NaN. *)
Definition js_lt (a b : number) : bool := SFltb a b.

(** [a >= b] : computed as "not (a < b)", and false when one side is NaN. *)
Definition js_ge (a b : number) : bool :=
  match SFcompare a b with
  | Some Lt | None => false
  | Some _ => true
  end.

Definition num_zero : number := S754_zero false.

(** The number whose value is the integer [n] (rounded to nearest even). *)
Definition num_of_Z (n : Z) : number := binary_normalize 53 1024 n 0 false.

(** What [response.json()] can produce. *)
Inductive json : Type :=
  | JNull
  | JBool (b : bool)
  | JNum (x : number)
  | JStr (s : string)
  | JArr (items : list json)
  | JObj (fields : list (string * json)).

(** ToBoolean. *)
Definition truthy (v : json) : bool :=
  match v with
  | JNull => false
  | JBool b => b
  | JNum (S754_zero _) | JNum S754_nan => false
  | JNum _ => true
  | JStr s => negb (String.eqb s "")
  | JArr _ | JObj _ => true
  end.

Fixpoint assoc {A} (k : string) (l : list (string * A)) : option A :=
  match l with
  | [] => None
  | (k', v) :: r => if String.eqb k' k then Some v else assoc k r
  end.

(** [v.k] for a [v] that is not null; [None] is [undefined]. *)
Definition field (k : string) (v : json) : option json :=
  match v with
  | JObj fs => assoc k fs
  | _ => None
  end.

(** [x || fallback], for a property read [x] and a truthy fallback. *)
Definition or_else (x : option json) (fallback : json) : json :=
  match x with
  | Some v => if truthy v then v else fallback
  | None => fallback
  end.

Definition truthy_opt (x : option json) : bool :=
  match x with Some v => truthy v | None => false end.

(** ** What the browser supplies *)

Record File := { file_name : string; file_type : string; file_size : N }.

(** Built-ins whose results the scripts use but do not compute. *)
Class Host := {
  (** the global [parseFloat] *)
  parseFloat : string -> number;
  (** Number::toString, used when a number lands in a template literal *)
  numberToString : number -> string;
  (** the message of the TypeError raised by reading a property of null *)
  nullPropertyMessage : string -> string;
  (** the message of the TypeError raised by converting to a string an
      object that has no primitive value *)
  conversionMessage : string;
  (** [(size / 1024 / 1024).toFixed(2)] *)
  sizeInMB : N -> string
}.

Section Values.
Context `{Host}.

(** ToString, as applied by template literals, [alert] and [new Error];
    [None] when it throws a TypeError. A parsed object converts through
    Object.prototype.toString, to '[object Object]', unless it has an own
    [toString] property: that one is never callable, Object.prototype.valueOf
    returns the object itself, and the object has no primitive value. An
    array joins the conversions of its items, null giving the empty string. *)
Fixpoint toString (v : json) : option string :=
  match v with
  | JNull => Some "null"
  | JBool true => Some "true"
  | JBool false => Some "false"
  | JNum x => Some (numberToString x)
  | JStr s => Some s
  | JArr items =>
      String.concat "," <$>
        mapM (fun e => match e with JNull => Some "" | _ => toString e end) items
  | JObj fields =>
      match assoc "toString" fields with
      | Some _ => None
      | None => Some "[object Object]"
      end
  end.

End Values.

(** ** Elements and the document *)

Record Element := {
  elemId : string;                       (* "" when the element has no id *)
  classList : list string;
  attributes : list (string * string);
  disabled : bool;
  value : string;
  textContent : string;
  src : string;
  innerHTML : string;
  files : list File
}.

Definition with_classList (f : list string -> list string) (e : Element) : Element :=
  {| elemId := elemId e; classList := f (classList e); attributes := attributes e;
     disabled := disabled e; value := value e; textContent := textContent e;
     src := src e; innerHTML := innerHTML e; files := files e |}.

Definition with_disabled (b : bool) (e : Element) : Element :=
  {| elemId := elemId e; classList := classList e; attributes := attributes e;
     disabled := b; value := value e; textContent := textContent e;
     src := src e; innerHTML := innerHTML e; files := files e |}.

Definition with_value (s : string) (e : Element) : Element :=
  {| elemId := elemId e; classList := classList e; attributes := attributes e;
     disabled := disabled e; value := s; textContent := textContent e;
     src := src e; innerHTML := innerHTML e; files := files e |}.

Definition with_textContent (s : string) (e : Element) : Element :=
  {| elemId := elemId e; classList := classList e; attributes := attributes e;
     disabled := disabled e; value := value e; textContent := s;
     src := src e; innerHTML := innerHTML e; files := files e |}.

Definition with_src (s : string) (e : Element) : Element :=
  {| elemId := elemId e; classList := classList e; attributes := attributes e;
     disabled := disabled e; value := value e; textContent := textContent e;
     src := s; innerHTML := innerHTML e; files := files e |}.

Definition with_innerHTML (s : string) (e : Element) : Element :=
  {| elemId := elemId e; classList := classList e; attributes := attributes e;
     disabled := disabled e; value := value e; textContent := textContent e;
     src := src e; innerHTML := s; files := files e |}.

Definition with_files (fs : list File) (e : Element) : Element :=
  {| elemId := elemId e; classList := classList e; attributes := attributes e;
     disabled := disabled e; value := value e; textContent := textContent e;
     src := src e; innerHTML := innerHTML e; files := fs |}.

(** A write to a property other than the id. *)
Definition keepsId (f : Element -> Element) : Prop := forall e, elemId (f e) = elemId e.

(** DOMTokenList operations. *)
Definition contains (cls : string) (l : list string) : bool :=
  existsb (String.eqb cls) l.

Definition add (cls : string) (l : list string) : list string :=
  if contains cls l then l else l ++ [cls].

Definition remove (cls : string) (l : list string) : list string :=
  List.filter (fun c => negb (String.eqb cls c)) l.

(** The elements in tree order; an element reference is its position. *)
Abbreviation Document := (list Element).

Fixpoint indexOf (id : string) (ids : list string) : option nat :=
  match ids with
  | [] => None
  | x :: r => if String.eqb x id then Some 0 else S <$> indexOf id r
  end.

(** [document.getElementById(id)]: the first element with that id, or null. *)
Definition getElementById (id : string) (d : Document) : option nat :=
  if String.eqb id "" then None else indexOf id (elemId <$> d).

Definition hasClass (cls : string) (d : Document) (i : nat) : bool :=
  match d !! i with
  | Some e => contains cls (classList e)
  | None => false
  end.

(** [document.querySelectorAll('.cls')] *)
Definition querySelectorAll (cls : string) (d : Document) : list nat :=
  List.filter (hasClass cls d) (seq 0 (length d)).

(** [document.querySelector('.c1.c2')] *)
Definition querySelector2 (c1 c2 : string) (d : Document) : option nat :=
  head (List.filter (fun i => hasClass c1 d i && hasClass c2 d i) (seq 0 (length d))).

(** The property [g] of element [i], when there is such an element. *)
Definition propAt {A} (g : Element -> A) (d : Document) (i : nat) : option A :=
  g <$> d !! i.

(** [el.getAttribute(name)]; [None] is null. *)
Definition getAttribute (name : string) (d : Document) (i : nat) : option string :=
  e ← d !! i; assoc name (attributes e).

Definition classList_add (cls : string) (i : nat) (d : Document) : Document :=
  alter (with_classList (add cls)) i d.

Definition classList_remove (cls : string) (i : nat) (d : Document) : Document :=
  alter (with_classList (remove cls)) i d.

(** ** tab_navigation.js *)

(** [document.getElementById(x)] for an [x] read with [getAttribute]: a null
    argument is converted to the string "null". *)
Definition getElementByAttr (x : option string) (d : Document) : option nat :=
  getElementById (default "null" x) d.

(** The element a tab points at:
    [document.getElementById(tab.getAttribute('data-target'))]. *)
Definition tabTarget (d : Document) (tab : nat) : option nat :=
  getElementByAttr (getAttribute "data-target" d tab) d.

(** "Show the corresponding tab content". *)
Definition showTarget (tab : nat) (d : Document) : Document :=
  match tabTarget d tab with
  | Some targetContent => classList_add "active" targetContent d
  | None => d
  end.

(** The click listener of one tab; [navTabs] and [tabContents] are the static
    node lists captured by [initializeTabNavigation]. *)
Definition tabClickHandler (navTabs tabContents : list nat) (tab : nat)
    (d : Document) : Document :=
  let d := foldl (fun d t => classList_remove "active" t d) d navTabs in
  let d := foldl (fun d c => classList_remove "active" c d) d tabContents in
  let d := classList_add "active" tab d in
  showTarget tab d.

(** The document after a click on [tab], for the node lists that
    [initializeTabNavigation] collects in [d]. *)
Definition clickTab (tab : nat) (d : Document) : Document :=
  tabClickHandler (querySelectorAll "nav-tab" d) (querySelectorAll "tab-content" d) tab d.


(** ** The page state *)

(** The variables captured by the listeners of one [initializeVideoTrimming]
    call; [currentVideoFilename] is the address of the closure's variable. *)
Module trim.
Record closure := {
  startSecondInput : nat;
  endSecondInput : nat;
  trimVideoButton : nat;
  videoPreviewArea : nat;
  videoElement : nat;
  currentVideoFilename : nat
}.
End trim.

(** The same for one [initializeFileUpload] call. *)
Module upload.
Record closure := {
  videoFileInput : nat;
  uploadButton : nat;
  videoPreviewArea : nat;
  videoElement : nat;
  videoMetadata : nat;
  currentVideoFilename : nat
}.
End upload.

Inductive Handler : Type :=
  | TabClick (navTabs tabContents : list nat) (tab : nat)
  | TrimClick (c : trim.closure)
  | UploadClick (c : upload.closure)
  | FileChange (c : upload.closure).

Inductive EventType : Type := click | change.

Record Listener := { target : nat; on : EventType; handler : Handler }.

Inductive RequestBody : Type :=
  | JsonBody (v : json)                       (* the value given to JSON.stringify *)
  | FormData (entries : list (string * File)).

Inductive Effect : Type :=
  | Alert (msg : string)
  | Fetch (url : string) (body : RequestBody).

(** A fetch whose promise chain has not run yet, with the closure its
    callbacks belong to. *)
Inductive Pending : Type :=
  | TrimChain (c : trim.closure)
  | UploadChain (c : upload.closure).

Record World := {
  document : Document;
  heap : list json;
  listeners : list Listener;
  pending : list Pending;
  effects : list Effect
}.

Definition onDocument (f : Document -> Document) (w : World) : World :=
  {| document := f (document w); heap := heap w; listeners := listeners w;
     pending := pending w; effects := effects w |}.

Definition setProp (i : nat) (f : Element -> Element) (w : World) : World :=
  onDocument (alter f i) w.

Definition alert (msg : string) (w : World) : World :=
  {| document := document w; heap := heap w; listeners := listeners w;
     pending := pending w; effects := effects w ++ [Alert msg] |}.

Definition fetch (url : string) (body : RequestBody) (chain : Pending) (w : World) : World :=
  {| document := document w; heap := heap w; listeners := listeners w;
     pending := pending w ++ [chain]; effects := effects w ++ [Fetch url body] |}.

Definition addEventListener (l : Listener) (w : World) : World :=
  {| document := document w; heap := heap w; listeners := listeners w ++ [l];
     pending := pending w; effects := effects w |}.

(** [let x = v]: a fresh variable, at the next free address. *)
Definition alloc (v : json) (w : World) : nat * World :=
  (length (heap w),
   {| document := document w; heap := heap w ++ [v]; listeners := listeners w;
      pending := pending w; effects := effects w |}).

(** [x = v] *)
Definition store (a : nat) (v : json) (w : World) : World :=
  {| document := document w; heap := <[a := v]> (heap w); listeners := listeners w;
     pending := pending w; effects := effects w |}.

Definition removePending (k : nat) (w : World) : World :=
  {| document := document w; heap := heap w; listeners := listeners w;
     pending := delete k (pending w); effects := effects w |}.

Definition blank : Element :=
  {| elemId := ""; classList := []; attributes := []; disabled := false; value := "";
     textContent := ""; src := ""; innerHTML := ""; files := [] |}.

Definition elementAt (w : World) (i : nat) : Element := default blank (document w !! i).

Definition load (w : World) (a : nat) : json := default JNull (heap w !! a).

(** ** The fetch promise chains *)

Inductive Body : Type :=
  | BadJson (message : string)       (* [response.json()] rejects *)
  | Json (v : json).

Inductive Outcome : Type :=
  | NetworkError (message : string)  (* [fetch] rejects *)
  | Response (ok : bool) (body : Body).

Section Scripts.
Context `{Host}.

(** How a callback ends: it returns, or it throws an error with a message;
    [w] is the state it leaves. *)
Inductive Completion : Type :=
  | Normal (w : World)
  | Throw (message : string) (w : World).

Definition stateOf (r : Completion) : World :=
  match r with
  | Normal w | Throw _ w => w
  end.

(** [.catch(handler)] after a callback. *)
Definition catching (handler : string -> World -> World) (r : Completion) : World :=
  match r with
  | Normal w => w
  | Throw m w => handler m w
  end.

(** The first [then] callback: [inr data] when it fulfils with the parsed
    body, [inl m] when the chain is rejected with an error of message [m].
    On a response that is not ok, [new Error(err.message || failed)] converts
    its argument to a string; when that throws, the TypeError is the
    rejection. *)
Definition readResponse (failed : string) (o : Outcome) : string + json :=
  match o with
  | NetworkError m => inl m
  | Response _ (BadJson m) => inl m
  | Response false (Json JNull) => inl (nullPropertyMessage "message")
  | Response false (Json err) =>
      inl (default conversionMessage
             (toString (or_else (field "message" err) (JStr failed))))
  | Response true (Json data) => inr data
  end.

(** [error.message || 'An unknown error occurred.'] *)
Definition errorText (m : string) : string :=
  if String.eqb m "" then "An unknown error occurred." else m.

(** ** video_trimming.js *)

Definition trimClickHandler (c : trim.closure) (w : World) : World :=
  let currentVideoFilename := load w (trim.currentVideoFilename c) in
  if negb (truthy currentVideoFilename) then alert "Please upload a video first." w
  else
    let startTime := parseFloat (value (elementAt w (trim.startSecondInput c))) in
    let endTime := parseFloat (value (elementAt w (trim.endSecondInput c))) in
    if isNaN startTime || isNaN endTime
       || js_lt startTime num_zero || js_lt endTime num_zero
    then alert "Please enter valid positive numbers for start and end times." w
    else if js_ge startTime endTime
    then alert "Start time must be less than end time." w
    else
      let trimData := JObj [("filename", currentVideoFilename);
                            ("start_time", JNum startTime);
                            ("end_time", JNum endTime)] in
      let w := setProp (trim.trimVideoButton c) (with_classList (add "loading")) w in
      let w := setProp (trim.trimVideoButton c) (with_disabled true) w in
      let w := setProp (trim.trimVideoButton c) (with_textContent "Trimming...") w in
      fetch "/trim_video" (JsonBody trimData) (TrimChain c) w.

(** The two numbers the handler validates. *)
Definition startTime (c : trim.closure) (w : World) : number :=
  parseFloat (value (elementAt w (trim.startSecondInput c))).

Definition endTime (c : trim.closure) (w : World) : number :=
  parseFloat (value (elementAt w (trim.endSecondInput c))).

(** [w'] is [w] after one [alert(msg)] and nothing else: no request, no write
    to the document, to a variable or to the listeners. *)
Definition onlyAlerts (msg : string) (w w' : World) : Prop :=
  document w' = document w /\ heap w' = heap w /\ listeners w' = listeners w /\
  pending w' = pending w /\ effects w' = (effects w ++ [Alert msg])%list.

(** The alert a click ends with when the handler sends nothing. *)
Definition rejection (c : trim.closure) (w : World) : option string :=
  if negb (truthy (load w (trim.currentVideoFilename c)))
  then Some "Please upload a video first."
  else if isNaN (startTime c w) || isNaN (endTime c w)
          || js_lt (startTime c w) num_zero || js_lt (endTime c w) num_zero
  then Some "Please enter valid positive numbers for start and end times."
  else if js_ge (startTime c w) (endTime c w)
  then Some "Start time must be less than end time."
  else None.

(** The bounds a rejected trim can have violated. *)
Inductive Bound : Type := NumericBound | SignBound | OrderBound | DurationBound.

Definition violated (b : Bound) (start_time end_time duration : number) : bool :=
  match b with
  | NumericBound => isNaN start_time || isNaN end_time
  | SignBound => js_lt start_time num_zero || js_lt end_time num_zero
  | OrderBound => js_ge start_time end_time
  | DurationBound => js_lt duration end_time
  end.

(** The message of a rejected click names the violated bound: the bound can
    be read off the message with [name], whatever the click. *)
Definition namesTheBound (name : string -> Bound) : Prop :=
  forall c w duration msg,
    truthy (load w (trim.currentVideoFilename c)) = true ->
    isNaN (startTime c w) || isNaN (endTime c w)
      || js_lt (startTime c w) num_zero || js_lt (endTime c w) num_zero = true ->
    effects (trimClickHandler c w) = (effects w ++ [Alert msg])%list ->
    violated (name msg) (startTime c w) (endTime c w) duration = true.

(** The second [then] callback, for a [data] that is not null;
    [data.success && data.trimmed_filename] is truthy only when the property
    is there. [alert] and the template literal convert their argument to a
    string: when that throws, the callback ends there, after the assignment
    to [currentVideoFilename] in the second case. *)
Definition trimThen (c : trim.closure) (data : json) (w : World) : Completion :=
  match toString (or_else (field "message" data) (JStr "Video trimmed successfully!")) with
  | None => Throw conversionMessage w
  | Some message =>
      let w := alert message w in
      match field "trimmed_filename" data with
      | Some trimmed_filename =>
          if truthy_opt (field "success" data) && truthy trimmed_filename then
            let w := store (trim.currentVideoFilename c) trimmed_filename w in
            match toString (load w (trim.currentVideoFilename c)) with
            | None => Throw conversionMessage w
            | Some name =>
                let w := setProp (trim.videoElement c) (with_src ("/get_video/" ++ name)) w in
                Normal (setProp (trim.videoPreviewArea c) (with_classList (add "active")) w)
            end
          else Normal w
      | None => Normal w
      end
  end.

Definition trimCatch (m : string) (w : World) : World :=
  alert ("Trimming failed: " ++ errorText m) w.

Definition trimFinally (c : trim.closure) (w : World) : World :=
  let w := setProp (trim.trimVideoButton c) (with_classList (remove "loading")) w in
  let w := setProp (trim.trimVideoButton c) (with_disabled false) w in
  setProp (trim.trimVideoButton c) (with_textContent "Trim Video") w.

(** The [then] and [catch] callbacks of the chain: reading [data.message] of a
    null body throws, which the [catch] callback receives, as it receives
    what the second [then] callback throws. *)
Definition trimCallbacks (c : trim.closure) (o : Outcome) (w : World) : World :=
  match readResponse "Trimming failed" o with
  | inr JNull => trimCatch (nullPropertyMessage "message") w
  | inr data => catching trimCatch (trimThen c data w)
  | inl m => trimCatch m w
  end.

(** The whole chain behind one [fetch('/trim_video')], run on its outcome. *)
Definition trimSettle (c : trim.closure) (o : Outcome) (w : World) : World :=
  trimFinally c (trimCallbacks c o w).

(** One call of [initializeVideoTrimming]. With a file name that is truthy
    the three controls are enabled and the name is logged in a template
    literal: when its conversion throws, the call ends there, before the
    listener is registered. *)
Definition callInitializeVideoTrimming (uploadedFilename : option json) (w : World)
    : Completion :=
  let d := document w in
  let startSecondInput := getElementById "start-second" d in
  let endSecondInput := getElementById "end-second" d in
  let trimVideoButton := getElementById "trim-video-button" d in
  let videoPreviewArea := getElementById "video-preview-area" d in
  let videoElement := getElementById "video-preview" d in
  let '(currentVideoFilename, w) := alloc (default JNull uploadedFilename) w in
  match startSecondInput, endSecondInput, trimVideoButton, videoPreviewArea, videoElement with
  | Some s, Some e, Some b, Some a, Some v =>
      let listener :=
        {| target := b; on := click;
           handler := TrimClick
             {| trim.startSecondInput := s; trim.endSecondInput := e;
                trim.trimVideoButton := b; trim.videoPreviewArea := a;
                trim.videoElement := v;
                trim.currentVideoFilename := currentVideoFilename |} |} in
      if truthy (load w currentVideoFilename) then
        let w := setProp s (with_disabled false) w in
        let w := setProp e (with_disabled false) w in
        let w := setProp b (with_disabled false) w in
        match toString (load w currentVideoFilename) with
        | None => Throw conversionMessage w
        | Some _ => Normal (addEventListener listener w)
        end
      else
        let w := setProp s (with_disabled true) w in
        let w := setProp e (with_disabled true) w in
        let w := setProp b (with_disabled true) w in
        Normal (addEventListener listener w)
  | _, _, _, _, _ => Normal w
  end.

(** The state a call of [initializeVideoTrimming] leaves. *)
Definition initializeVideoTrimming (uploadedFilename : option json) (w : World) : World :=
  stateOf (callInitializeVideoTrimming uploadedFilename w).

(** ** file_upload.js *)

(** The markup written to the metadata element for a selected file. *)
Definition metadataMarkup (file : File) : string :=
  "
                    <p><strong>Filename:</strong> " ++ file_name file ++ "</p>
                    <p><strong>Type:</strong> " ++ file_type file ++ "</p>
                    <p><strong>Size:</strong> " ++ sizeInMB (file_size file) ++ " MB</p>
                    <!-- TODO: Add video dimensions/duration after loading -->
                ".

(** The change listener of the file input ([event.target] is that input).
    The markup assigned to [innerHTML] is kept as written; the elements a
    browser parses out of a file name or type that holds markup are not
    added to the document. *)
Definition fileChangeHandler (c : upload.closure) (w : World) : World :=
  match head (files (elementAt w (upload.videoFileInput c))) with
  | Some file =>
      let w := setProp (upload.videoMetadata c) (with_innerHTML (metadataMarkup file)) w in
      let w := setProp (upload.videoPreviewArea c) (with_classList (add "active")) w in
      let w := setProp (upload.videoElement c) (with_src "") w in
      setProp (upload.uploadButton c) (with_disabled false) w
  | None =>
      let w := setProp (upload.videoPreviewArea c) (with_classList (remove "active")) w in
      let w := setProp (upload.videoElement c) (with_src "") w in
      let w := setProp (upload.videoMetadata c) (with_innerHTML "") w in
      setProp (upload.uploadButton c) (with_disabled true) w
  end.

Definition uploadClickHandler (c : upload.closure) (w : World) : World :=
  match head (files (elementAt w (upload.videoFileInput c))) with
  | None => alert "Please select a video file to upload." w
  | Some file =>
      let formData := FormData [("video", file)] in
      let w := setProp (upload.uploadButton c) (with_classList (add "loading")) w in
      let w := setProp (upload.uploadButton c) (with_disabled true) w in
      let w := setProp (upload.uploadButton c) (with_textContent "Uploading...") w in
      fetch "/upload_video" formData (UploadChain c) w
  end.

(** The second [then] callback, for a [data] that is not null;
    [data.success && data.filename] is truthy only when the property is
    there. [alert] and the template literal convert their argument to a
    string: when that throws, the callback ends there, after the assignment
    to [currentVideoFilename] in the second case. *)
Definition uploadThen (c : upload.closure) (data : json) (w : World) : Completion :=
  match toString (or_else (field "message" data) (JStr "File uploaded successfully!")) with
  | None => Throw conversionMessage w
  | Some message =>
      let w := alert message w in
      match field "filename" data with
      | Some filename =>
          if truthy_opt (field "success" data) && truthy filename then
            let w := store (upload.currentVideoFilename c) filename w in
            match toString (load w (upload.currentVideoFilename c)) with
            | None => Throw conversionMessage w
            | Some name =>
                let w := setProp (upload.videoElement c)
                           (with_src ("/get_video/" ++ name)) w in
                let w := setProp (upload.videoPreviewArea c)
                           (with_classList (add "active")) w in
                callInitializeVideoTrimming
                  (Some (load w (upload.currentVideoFilename c))) w
            end
          else Normal w
      | None => Normal w
      end
  end.

Definition uploadCatch (m : string) (w : World) : World :=
  alert ("Upload failed: " ++ errorText m) w.

Definition uploadFinally (c : upload.closure) (w : World) : World :=
  let w := setProp (upload.uploadButton c) (with_classList (remove "loading")) w in
  let w := setProp (upload.uploadButton c) (with_disabled false) w in
  setProp (upload.uploadButton c) (with_textContent "Upload Video") w.

(** The [then] and [catch] callbacks of the chain. *)
Definition uploadCallbacks (c : upload.closure) (o : Outcome) (w : World) : World :=
  match readResponse "Upload failed" o with
  | inr JNull => uploadCatch (nullPropertyMessage "message") w
  | inr data => catching uploadCatch (uploadThen c data w)
  | inl m => uploadCatch m w
  end.

(** The whole chain behind one [fetch('/upload_video')], run on its outcome. *)
Definition uploadSettle (c : upload.closure) (o : Outcome) (w : World) : World :=
  uploadFinally c (uploadCallbacks c o w).

Definition initializeFileUpload (w : World) : World :=
  let d := document w in
  let videoFileInput := getElementById "video-file-input" d in
  let uploadButton := getElementById "upload-video-button" d in
  let videoPreviewArea := getElementById "video-preview-area" d in
  let videoElement := getElementById "video-preview" d in
  let videoMetadata := getElementById "video-metadata" d in
  let '(currentVideoFilename, w) := alloc JNull w in
  match videoFileInput, uploadButton, videoPreviewArea, videoElement, videoMetadata with
  | Some i, Some b, Some a, Some v, Some m =>
      let c := {| upload.videoFileInput := i; upload.uploadButton := b;
                  upload.videoPreviewArea := a; upload.videoElement := v;
                  upload.videoMetadata := m;
                  upload.currentVideoFilename := currentVideoFilename |} in
      let w := addEventListener {| target := i; on := change; handler := FileChange c |} w in
      let w := addEventListener {| target := b; on := click; handler := UploadClick c |} w in
      setProp b (with_disabled true) w
  | _, _, _, _, _ => w
  end.

(** ** tab_navigation.js, on the page state *)

Definition initializeTabNavigation (w : World) : World :=
  let navTabs := querySelectorAll "nav-tab" (document w) in
  let tabContents := querySelectorAll "tab-content" (document w) in
  let w := foldl (fun w tab =>
                    addEventListener
                      {| target := tab; on := click;
                         handler := TabClick navTabs tabContents tab |} w)
                 w navTabs in
  match querySelector2 "nav-tab" "active" (document w) with
  | Some defaultTab => onDocument (showTarget defaultTab) w
  | None =>
      match navTabs with
      | first :: _ =>
          onDocument (fun d => showTarget first (classList_add "active" first d)) w
      | [] => w
      end
  end.

(** ** app.js and the events of the page *)

Definition emptyWorld (d : Document) : World :=
  {| document := d; heap := []; listeners := []; pending := []; effects := [] |}.

(** The DOMContentLoaded listener. *)
Definition pageLoad (d : Document) : World :=
  initializeVideoTrimming None (initializeFileUpload (initializeTabNavigation (emptyWorld d))).

Definition runHandler (h : Handler) (w : World) : World :=
  match h with
  | TabClick navTabs tabContents tab => onDocument (tabClickHandler navTabs tabContents tab) w
  | TrimClick c => trimClickHandler c w
  | UploadClick c => uploadClickHandler c w
  | FileChange c => fileChangeHandler c w
  end.

Definition EventType_eqb (a b : EventType) : bool :=
  match a, b with
  | click, click | change, change => true
  | _, _ => false
  end.

(** The listeners registered on element [i] for [ty], in registration order. *)
Definition dispatch (ty : EventType) (i : nat) (w : World) : World :=
  foldl (fun w l =>
           if Nat.eqb (target l) i && EventType_eqb (on l) ty
           then runHandler (handler l) w else w)
        w (listeners w).

Definition settle (p : Pending) (o : Outcome) (w : World) : World :=
  match p with
  | TrimChain c => trimSettle c o w
  | UploadChain c => uploadSettle c o w
  end.

(** What can happen to the page after it has loaded. A disabled control
    receives no user event. *)
Inductive Event : Type :=
  | Click (i : nat)
  | SelectFiles (i : nat) (fs : list File)
  | TypeText (i : nat) (text : string)
  | Settle (k : nat) (o : Outcome).

Definition step (w : World) (ev : Event) : World :=
  match ev with
  | Click i =>
      if disabled (elementAt w i) then w else dispatch click i w
  | SelectFiles i fs =>
      if disabled (elementAt w i) then w
      else dispatch change i (setProp i (with_files fs) w)
  | TypeText i text =>
      if disabled (elementAt w i) then w else setProp i (with_value text) w
  | Settle k o =>
      match pending w !! k with
      | Some p => settle p o (removePending k w)
      | None => w
      end
  end.

Definition run (w : World) (evs : list Event) : World := foldl step w evs.

(** The states a page built from document [d] can be in. *)
Inductive Reachable (d : Document) : World -> Prop :=
  | reach_load : Reachable d (pageLoad d)
  | reach_step w ev : Reachable d w -> Reachable d (step w ev).

End Scripts.

(** ** Well-formed page states

    The references a closure holds are the elements the script looked up by
    id when the closure was created, and its variable is allocated. *)

Definition trimClosureOk (d : Document) (n : nat) (c : trim.closure) : Prop :=
  getElementById "start-second" d = Some (trim.startSecondInput c) /\
  getElementById "end-second" d = Some (trim.endSecondInput c) /\
  getElementById "trim-video-button" d = Some (trim.trimVideoButton c) /\
  getElementById "video-preview-area" d = Some (trim.videoPreviewArea c) /\
  getElementById "video-preview" d = Some (trim.videoElement c) /\
  trim.currentVideoFilename c < n.

Definition uploadClosureOk (d : Document) (n : nat) (c : upload.closure) : Prop :=
  getElementById "video-file-input" d = Some (upload.videoFileInput c) /\
  getElementById "upload-video-button" d = Some (upload.uploadButton c) /\
  getElementById "video-preview-area" d = Some (upload.videoPreviewArea c) /\
  getElementById "video-preview" d = Some (upload.videoElement c) /\
  getElementById "video-metadata" d = Some (upload.videoMetadata c) /\
  upload.currentVideoFilename c < n.

Definition handlerOk (d : Document) (n : nat) (h : Handler) : Prop :=
  match h with
  | TabClick _ _ _ => True
  | TrimClick c => trimClosureOk d n c
  | UploadClick c | FileChange c => uploadClosureOk d n c
  end.

Definition pendingOk (d : Document) (n : nat) (p : Pending) : Prop :=
  match p with
  | TrimChain c => trimClosureOk d n c
  | UploadChain c => uploadClosureOk d n c
  end.

(** [w] is a state of the page built from [d]: same elements with the same
    ids, and every closure in a listener or a pending chain is sound. *)
Record wellFormed (d : Document) (w : World) : Prop := {
  wf_ids : (elemId <$> (document w)) = (elemId <$> d);
  wf_listeners :
    Forall (fun l => handlerOk d (length (heap w)) (handler l)) (listeners w);
  wf_pending : Forall (pendingOk d (length (heap w))) (pending w)
}.

(** The button whose click started a chain, and the label the chain's
    [finally] callback gives it back. *)
Definition triggeringButton (p : Pending) : nat :=
  match p with
  | TrimChain c => trim.trimVideoButton c
  | UploadChain c => upload.uploadButton c
  end.

Definition restingLabel (p : Pending) : string :=
  match p with
  | TrimChain _ => "Trim Video"
  | UploadChain _ => "Upload Video"
  end.

(** The property of the reply that carries the new asset's name. *)
Definition filenameKey (p : Pending) : string :=
  match p with
  | TrimChain _ => "trimmed_filename"
  | UploadChain _ => "filename"
  end.

(** A successful reply: a 2xx response whose body parses to a value with a
    truthy [success] and a truthy file name under [key]. Everything else is
    a failed request: a network error, a non-ok response, a body that is not
    JSON, [success] false or missing, the file name empty or missing. *)
Definition succeeds (key : string) (o : Outcome) : bool :=
  match o with
  | Response true (Json data) =>
      truthy_opt (field "success" data) && truthy_opt (field key data)
  | _ => false
  end.

(** The event is the successful reply to a pending upload or trim request. *)
Definition successfulReply (w : World) (ev : Event) : bool :=
  match ev with
  | Settle k o =>
      match pending w !! k with
      | Some p => succeeds (filenameKey p) o
      | None => false
      end
  | _ => false
  end.

(** None of the events [evs], run from [w], is a successful reply. *)
Fixpoint unsuccessful `{Host} (w : World) (evs : list Event) : bool :=
  match evs with
  | [] => true
  | ev :: rest => negb (successfulReply w ev) && unsuccessful (step w ev) rest
  end.

(** ** A sample host and a sample page, for the examples *)

Definition digitValue (c : Ascii.ascii) : option Z :=
  let n := Z.of_nat (Ascii.nat_of_ascii c) in
  if ((48 <=? n) && (n <=? 57))%Z then Some (n - 48)%Z else None.

Fixpoint digitsValue (s : string) (acc : Z) : option Z :=
  match s with
  | EmptyString => Some acc
  | String c r => d ← digitValue c; digitsValue r (10 * acc + d)%Z
  end.

(** [parseFloat] on decimal integer literals with an optional minus sign; the
    sample knows no other number syntax and answers NaN elsewhere. *)
Definition sampleParseFloat (s : string) : number :=
  match s with
  | EmptyString => S754_nan
  | String c r =>
      if Ascii.eqb c (Ascii.ascii_of_nat 45) then      (* a leading minus sign *)
        match r, digitsValue r 0 with
        | EmptyString, _ | _, None => S754_nan
        | _, Some 0%Z => S754_zero true
        | _, Some n => num_of_Z (- n)
        end
      else
        match digitsValue s 0 with
        | Some n => num_of_Z n
        | None => S754_nan
        end
  end.

(** Number::toString on the values that have a fixed spelling; the sample does
    not print the other ones. *)
Definition sampleNumberToString (x : number) : string :=
  match x with
  | S754_nan => "NaN"
  | S754_infinity false => "Infinity"
  | S754_infinity true => "-Infinity"
  | S754_zero _ => "0"
  | S754_finite _ _ _ => "?"
  end.

(** [(size / 1024 / 1024).toFixed(2)]: the quotient is exact, and toFixed
    rounds its hundredths half up. *)
Definition sampleSizeInMB (size : N) : string :=
  let hundredths := ((size * 200 + 1048576) / 2097152)%N in
  let cents := (hundredths mod 100)%N in
  pretty (hundredths / 100)%N ++ "." ++ (if (cents <? 10)%N then "0" else "") ++ pretty cents.

#[local] Instance sampleHost : Host := {|
  parseFloat := sampleParseFloat;
  numberToString := sampleNumberToString;
  nullPropertyMessage := fun p => "Cannot read properties of null (reading '" ++ p ++ "')";
  conversionMessage := "Cannot convert object to primitive value";
  sizeInMB := sampleSizeInMB
|}.

Definition element (id : string) (classes : list string) (attrs : list (string * string))
    : Element :=
  {| elemId := id; classList := classes; attributes := attrs; disabled := false;
     value := ""; textContent := ""; src := ""; innerHTML := ""; files := [] |}.

(** A page with two tabs and the upload form. *)
Definition samplePage : Document :=
  [ element "" ["nav-tab"; "active"] [("data-target", "upload-tab-content")];
    element "" ["nav-tab"] [("data-target", "edit-tab-content")];
    element "upload-tab-content" ["tab-content"] [];
    element "edit-tab-content" ["tab-content"] [];
    element "video-file-input" [] [];
    element "upload-video-button" ["upload-button"] [];
    element "video-preview-area" ["video-preview"] [];
    element "video-preview" [] [];
    element "video-metadata" ["video-metadata"] [];
    element "start-second" [] [];
    element "end-second" [] [];
    element "trim-video-button" ["upload-button"] [] ].

Definition sampleFile (name : string) : File :=
  {| file_name := name; file_type := "video/mp4"; file_size := 3000000 |}.

(** A 2xx reply [{success: true, <key>: <name>}]. *)
Definition okReply (key name : string) : Outcome :=
  Response true (Json (JObj [("success", JBool true); (key, JStr name)])).

(** The sample page after [name] was selected, sent and accepted: elements 4
    and 5 are the file input and the upload button. *)
Definition uploaded (name : string) (w : World) : World :=
  run w [SelectFiles 4 [sampleFile name]; Click 5;
         Settle (length (pending w)) (okReply "filename" name)].

(** The sample page with the start and end fields (elements 9 and 10) filled
    in. *)
Definition typed (start_text end_text : string) (w : World) : World :=
  run w [TypeText 9 start_text; TypeText 10 end_text].

(** The closure of the trim listener that the upload reply registers on the
    freshly loaded sample page. *)
Definition sampleTrimClosure : trim.closure :=
  {| trim.startSecondInput := 9; trim.endSecondInput := 10; trim.trimVideoButton := 11;
     trim.videoPreviewArea := 6; trim.videoElement := 7; trim.currentVideoFilename := 2 |}.

(** The closure of the trim listener registered when the sample page loads. *)
Definition initialTrimClosure : trim.closure :=
  {| trim.startSecondInput := 9; trim.endSecondInput := 10; trim.trimVideoButton := 11;
     trim.videoPreviewArea := 6; trim.videoElement := 7; trim.currentVideoFilename := 1 |}.

(** The sample page with a.mp4 uploaded and the range fields filled in. *)
Definition sampleRange (start_text end_text : string) : World :=
  typed start_text end_text (uploaded "a.mp4" (pageLoad samplePage)).

(** The closure of the upload listeners registered when the sample page
    loads. *)
Definition sampleUploadClosure : upload.closure :=
  {| upload.videoFileInput := 4; upload.uploadButton := 5; upload.videoPreviewArea := 6;
     upload.videoElement := 7; upload.videoMetadata := 8; upload.currentVideoFilename := 0 |}.

(** The sample page while the upload of a.mp4 is in flight. *)
Definition uploading : World :=
  run (pageLoad samplePage) [SelectFiles 4 [sampleFile "a.mp4"]; Click 5].

(** The sample page while the trim of seconds 1 to 2 of a.mp4 is in flight. *)
Definition trimming : World := run (sampleRange "1" "2") [Click 11].

(** A 2xx body [{success: true, filename: "a.mp4", message: {toString: 0}}]:
    its message has no string conversion. *)
Definition unprintableMessage : json :=
  JObj [("success", JBool true); ("filename", JStr "a.mp4");
        ("message", JObj [("toString", JNum num_zero)])].

(** A 2xx body [{success: true, filename: {toString: 0}}]: its file name is
    truthy and has no string conversion. *)
Definition unprintableName : json :=
  JObj [("success", JBool true); ("filename", JObj [("toString", JNum num_zero)])].

(** A 2xx body [{success: true, filename: ""}]. *)
Definition emptyName : json :=
  JObj [("success", JBool true); ("filename", JStr "")].

(** A 400 reply [{success: false, message: <message>}]. *)
Definition refusal (message : string) : Outcome :=
  Response false (Json (JObj [("success", JBool false); ("message", JStr message)])).

(** The body of the trim request for [name] with start 1 and end 2. *)
Definition sampleTrimData (name : string) : RequestBody :=
  JsonBody (JObj [("filename", JStr name);
                  ("start_time", JNum (num_of_Z 1)); ("end_time", JNum (num_of_Z 2))]).

(** Two uploads, then one trim of seconds 1 to 2: a click on the trim button
    (element 11) and the two replies it gets. *)
Definition twoUploadsOneTrim : World :=
  run (typed "1" "2" (uploaded "b.mp4" (uploaded "a.mp4" (pageLoad samplePage))))
      [Click 11;
       Settle 0 (okReply "trimmed_filename" "a_trim.mp4");
       Settle 0 (okReply "trimmed_filename" "b_trim.mp4")].


(** ** Vocabulary of the further properties *)

(** The address of the [currentVideoFilename] of the closure behind a chain. *)
Definition cellOf (p : Pending) : nat :=
  match p with
  | TrimChain c => trim.currentVideoFilename c
  | UploadChain c => upload.currentVideoFilename c
  end.

(** The text a 2xx reply without a message is announced with. *)
Definition successText (p : Pending) : string :=
  match p with
  | TrimChain _ => "Video trimmed successfully!"
  | UploadChain _ => "File uploaded successfully!"
  end.

(** The text a rejected chain is announced with. *)
Definition failureText (p : Pending) : string :=
  match p with
  | TrimChain _ => "Trimming failed"
  | UploadChain _ => "Upload failed"
  end.

(** The value has a string conversion. *)
Definition converts `{Host} (v : json) : bool :=
  match toString v with
  | Some _ => true
  | None => false
  end.

(** The reply passes the guard of the second [then] callback with a file
    name that has no string conversion, after a message that has one: the
    callback alerts, assigns the name and throws in the template literal. *)
Definition announcedTwice `{Host} (p : Pending) (o : Outcome) : bool :=
  match o with
  | Response true (Json data) =>
      succeeds (filenameKey p) o
      && converts (or_else (field "message" data) (JStr (successText p)))
      && negb (match field (filenameKey p) data with
               | Some name => converts name
               | None => true
               end)
  | _ => false
  end.

(** The event is the successful reply to a pending upload request. *)
Definition successfulUpload (w : World) (ev : Event) : bool :=
  match ev with
  | Settle k o =>
      match pending w !! k with
      | Some (UploadChain _) => succeeds "filename" o
      | _ => false
      end
  | _ => false
  end.




(** The listener [initializeTabNavigation] gives a tab. *)
Definition tabListener (navTabs tabContents : list nat) (tab : nat) : Listener :=
  {| target := tab; on := click; handler := TabClick navTabs tabContents tab |}.

(** The class list of an element after a tab click, by its part in the
    click: listed among the tabs or contents, the clicked tab, the target. *)
Definition tabClasses (listed clicked targeted : bool) (l : list string) : list string :=
  let l := if listed then remove "active" l else l in
  let l := if clicked then add "active" l else l in
  if targeted then add "active" l else l.

(** The tab [initializeTabNavigation] opens the page on: the first active
    nav-tab or, without one, the first nav-tab. *)
Definition defaultTab (d : Document) : option nat :=
  match querySelector2 "nav-tab" "active" d with
  | Some t => Some t
  | None => head (querySelectorAll "nav-tab" d)
  end.

(** The sample page with two files chosen. *)
Definition twoFilesChosen : World :=
  run (pageLoad samplePage) [SelectFiles 4 [sampleFile "a.mp4"; sampleFile "b.mp4"]].

(** The sample page without its end field. *)
Definition noEndField : Document :=
  List.filter (fun e => negb (String.eqb (elemId e) "end-second")) samplePage.

(** ** The asset pipeline behind the routes

    The scripts only call [/upload_video], [/trim_video] and [/get_video/<id>];
    the store and the trim engine that answer them are described by the
    specification (sections 3, 4.1, 4.2 and 7) and are modelled from it. *)

Module AssetStore.

(** Modelled from the spec: the asset kinds of section 3. *)
Inductive Kind : Type := video | image.

(** Modelled from the spec: what a [ValidationError] names, for [put]
    (section 4.1) and for [trim] (section 4.2). *)
Inductive Violation : Type :=
  | TooLarge | TypeNotAccepted | NotAVideo
  | NonNumeric | Negative | StartNotBeforeEnd | EndBeyondDuration.

(** Modelled from the spec: the error taxonomy of section 7. *)
Inductive Error : Type :=
  | ValidationError (which : Violation)
  | NotFoundError
  | UnsupportedFormatError
  | ProcessingError
  | StorageError.

(** Modelled from the spec: an asset id, an "opaque unique identifier". *)
Abbreviation AssetId := positive.

(** Modelled from the spec: the Asset record of section 3. *)
Record Asset := {
  id : AssetId;
  kind : Kind;
  original_name : string;
  size_bytes : N;
  content_type : string;
  derived_from : option AssetId
}.

(** Modelled from the spec: the Asset Store, a "durable mapping from asset
    identifier to file bytes plus minimal metadata"; identifiers are opaque. *)
Abbreviation Store := (gmap positive (Asset * list Byte.byte)).

(** Modelled from the spec: the configuration surface of section 6 that the
    store reads (upload size limit, accepted content types). *)
Record Config := { max_size : N; accepted_types : list string }.

(** Modelled from the spec: [put] of section 4.1, with the provenance link
    that trim outputs carry. It "writes bytes durably under a newly
    generated id, returns the Asset record", fails with [ValidationError]
    "if size exceeds a configured maximum or content_type is not an
    accepted media type" and with [StorageError] on I/O failure ([disk_ok]
    tells whether the write goes through); a failure leaves the store as it
    was. *)
Definition put_derived (cfg : Config) (disk_ok : bool) (source : option AssetId)
    (bytes : list Byte.byte) (k : Kind) (name ctype : string) (s : Store)
    : Store * (Error + Asset) :=
  let size := N.of_nat (length bytes) in
  if (max_size cfg <? size)%N then (s, inl (ValidationError TooLarge))
  else if negb (contains ctype (accepted_types cfg))
  then (s, inl (ValidationError TypeNotAccepted))
  else if negb disk_ok then (s, inl StorageError)
  else
    let a := {| id := fresh (dom s); kind := k; original_name := name;
                size_bytes := size; content_type := ctype;
                derived_from := source |} in
    (<[id a := (a, bytes)]> s, inr a).

(** Modelled from the spec: [put(bytes, kind, original_name, content_type)]. *)
Definition put (cfg : Config) (disk_ok : bool) (bytes : list Byte.byte) (k : Kind)
    (name ctype : string) (s : Store) : Store * (Error + Asset) :=
  put_derived cfg disk_ok None bytes k name ctype s.

(** Modelled from the spec: [get(id)] of section 4.1, which "fails with
    NotFoundError if id is unknown". *)
Definition get (i : AssetId) (s : Store) : Error + list Byte.byte :=
  match s !! i with
  | Some (_, bytes) => inr bytes
  | None => inl NotFoundError
  end.

(** Modelled from the spec: [exists(id)]. *)
Definition exists_ (i : AssetId) (s : Store) : bool := bool_decide (is_Some (s !! i)).

End AssetStore.

Module TrimEngine.
Import AssetStore.

(** Modelled from the spec: the trim policy of section 4.2. *)
Inductive Policy : Type := exact | fast.

(** Modelled from the spec: the media toolkit the engine calls (section 4.2),
    which probes the duration of a stream (nothing when the container cannot
    be parsed) and cuts a range out of it (nothing when the toolkit
    aborts). *)
Class Toolkit := {
  probe : list Byte.byte -> option number;
  cut : Policy -> list Byte.byte -> number -> number -> option (list Byte.byte)
}.

(** Modelled from the spec: the precondition [0 <= start < end <= duration]
    of section 4.2, whose violations "fail with ValidationError naming which
    bound was violated (non-numeric, negative, start >= end, end beyond
    duration)". *)
Definition check_range (start_seconds end_seconds duration : number) : option Violation :=
  if isNaN start_seconds || isNaN end_seconds then Some NonNumeric
  else if js_lt start_seconds num_zero then Some Negative
  else if js_ge start_seconds end_seconds then Some StartNotBeforeEnd
  else if js_lt duration end_seconds then Some EndBeyondDuration
  else None.

(** Modelled from the spec: [trim(source_id, start_seconds, end_seconds)] of
    section 4.2. The source must resolve ([NotFoundError]) to a video
    asset; its duration is probed from the stream
    ([UnsupportedFormatError]); the range is checked; the cut is written
    with [put] as a new asset with [derived_from = source_id]
    ([ProcessingError] when the toolkit aborts). *)
Definition trim `{Toolkit} (cfg : Config) (policy : Policy) (disk_ok : bool)
    (source_id : AssetId) (start_seconds end_seconds : number) (s : Store)
    : Store * (Error + Asset) :=
  match s !! source_id with
  | None => (s, inl NotFoundError)
  | Some (source, bytes) =>
      match kind source with
      | image => (s, inl (ValidationError NotAVideo))
      | video =>
          match probe bytes with
          | None => (s, inl UnsupportedFormatError)
          | Some duration =>
              match check_range start_seconds end_seconds duration with
              | Some which => (s, inl (ValidationError which))
              | None =>
                  match cut policy bytes start_seconds end_seconds with
                  | None => (s, inl ProcessingError)
                  | Some out =>
                      put_derived cfg disk_ok (Some source_id) out video
                        (original_name source) (content_type source) s
                  end
              end
          end
      end
  end.

(** The whole seconds in a non-negative number (0 for the others). *)
Definition seconds (x : number) : nat :=
  match x with
  | S754_finite false m e => Z.to_nat (Z.shiftl (Z.pos m) e)
  | _ => 0
  end.

(** A toy toolkit for the examples: a stream holds one byte per second. *)
#[local] Instance sampleToolkit : Toolkit := {|
  probe := fun bytes => Some (num_of_Z (Z.of_nat (length bytes)));
  cut := fun _ bytes a b => Some (take (seconds b - seconds a) (drop (seconds a) bytes))
|}.

Definition sampleConfig : Config :=
  {| max_size := 1000; accepted_types := ["video/mp4"; "image/png"] |}.

(** A ten-second video, as the store holds it after its upload. *)
Definition tenSeconds : list Byte.byte := replicate 10 Byte.x00.

Definition sampleStore : Store :=
  (put sampleConfig true tenSeconds video "clip.mp4" "video/mp4" ∅).1.

End TrimEngine.

(** * Properties *)

Section TrimValidation.
Context `{Host}.

Lemma alert_onlyAlerts msg w : onlyAlerts msg w (alert msg w).
Proof. by repeat split. Qed.

Lemma trimClickHandler_rejection c w msg :
  rejection c w = Some msg -> trimClickHandler c w = alert msg w.
Proof.
  unfold rejection, trimClickHandler, startTime, endTime.
  repeat case_match; congruence.
Qed.

Lemma js_ge_not_NaN a b : js_ge a b = true -> isNaN a = false /\ isNaN b = false.
Proof. by destruct a, b. Qed.

(** C8: a click handled while the closure's [currentVideoFilename] is not set
    (null, or any falsy value) shows "Please upload a video first." and
    returns at once: no input is read, no request is sent, and the document,
    the variables and the listeners are as before. *)
Theorem C8_click_without_video c w :
  truthy (load w (trim.currentVideoFilename c)) = false ->
  onlyAlerts "Please upload a video first." w (trimClickHandler c w).
Proof.
  intros Hcur. rewrite (trimClickHandler_rejection c w "Please upload a video first.").
  - apply alert_onlyAlerts.
  - unfold rejection. by rewrite Hcur.
Qed.

(** C1, as amended: when the parsed start time is greater than or equal to the
    parsed end time, the click ends with one alert and nothing else (no
    /trim_video request, hence no asset written; no state change). With a
    video set, the alert is "Start time must be less than end time." when
    both times are non-negative, and "Please enter valid positive numbers for
    start and end times." when one of them is negative. *)
Theorem C1_start_not_before_end c w :
  js_ge (startTime c w) (endTime c w) = true ->
  exists msg,
    onlyAlerts msg w (trimClickHandler c w) /\
    (truthy (load w (trim.currentVideoFilename c)) = true ->
     msg = if js_lt (startTime c w) num_zero || js_lt (endTime c w) num_zero
           then "Please enter valid positive numbers for start and end times."
           else "Start time must be less than end time.").
Proof.
  intros Hge. destruct (js_ge_not_NaN _ _ Hge) as [Hs He].
  destruct (rejection c w) as [msg|] eqn:Hrej.
  - exists msg. split.
    + rewrite (trimClickHandler_rejection c w msg Hrej). apply alert_onlyAlerts.
    + intros Hcur. revert Hrej. unfold rejection.
      rewrite Hcur, Hs, He, Hge. simpl. case_match; congruence.
  - exfalso. revert Hrej. unfold rejection. rewrite Hs, He, Hge. simpl.
    repeat case_match; congruence.
Qed.

(** C5, as amended: with a video set, when the start or the end time is
    non-numeric or negative the click ends with the one alert "Please enter
    valid positive numbers for start and end times." (the same text for a
    non-numeric and for a negative value, for the start and for the end) and
    nothing else: no /trim_video request is sent. *)
Theorem C5_not_a_positive_number c w :
  truthy (load w (trim.currentVideoFilename c)) = true ->
  isNaN (startTime c w) || isNaN (endTime c w)
    || js_lt (startTime c w) num_zero || js_lt (endTime c w) num_zero = true ->
  onlyAlerts "Please enter valid positive numbers for start and end times." w
    (trimClickHandler c w).
Proof.
  intros Hcur Hbad. rewrite (trimClickHandler_rejection c w
    "Please enter valid positive numbers for start and end times.").
  - apply alert_onlyAlerts.
  - unfold rejection. by rewrite Hcur, Hbad.
Qed.

End TrimValidation.

(** ** The validation of a trim click on the sample page *)

Lemma C8_click_without_video_witness :
  truthy (load (pageLoad samplePage) (trim.currentVideoFilename initialTrimClosure)) = false /\
  onlyAlerts "Please upload a video first." (pageLoad samplePage)
    (trimClickHandler initialTrimClosure (pageLoad samplePage)).
Proof.
  split; [vm_compute; reflexivity|].
  apply (C8_click_without_video initialTrimClosure (pageLoad samplePage)).
  vm_compute; reflexivity.
Defined.

(** C1 as stated fails with a.mp4 uploaded, start 5 and end -3: start >= end,
    and the alert is not "Start time must be less than end time.". *)
Lemma C1_counterexample :
  js_ge (startTime sampleTrimClosure (sampleRange "5" "-3"))
        (endTime sampleTrimClosure (sampleRange "5" "-3")) = true /\
  effects (trimClickHandler sampleTrimClosure (sampleRange "5" "-3"))
    = (effects (sampleRange "5" "-3")
       ++ [Alert "Please enter valid positive numbers for start and end times."])%list /\
  ~ onlyAlerts "Start time must be less than end time." (sampleRange "5" "-3")
      (trimClickHandler sampleTrimClosure (sampleRange "5" "-3")).
Proof.
  split; [vm_compute; reflexivity|]. split; [vm_compute; reflexivity|].
  intros (_ & _ & _ & _ & He). vm_compute in He. discriminate He.
Qed.

(** The scenario of the specification: start 6, end 4. *)
Lemma C1_start_not_before_end_witness :
  js_ge (startTime sampleTrimClosure (sampleRange "6" "4"))
        (endTime sampleTrimClosure (sampleRange "6" "4")) = true /\
  exists msg,
    onlyAlerts msg (sampleRange "6" "4")
      (trimClickHandler sampleTrimClosure (sampleRange "6" "4")) /\
    (truthy (load (sampleRange "6" "4") (trim.currentVideoFilename sampleTrimClosure)) = true ->
     msg = if js_lt (startTime sampleTrimClosure (sampleRange "6" "4")) num_zero
              || js_lt (endTime sampleTrimClosure (sampleRange "6" "4")) num_zero
           then "Please enter valid positive numbers for start and end times."
           else "Start time must be less than end time.").
Proof.
  split; [vm_compute; reflexivity|].
  apply (C1_start_not_before_end sampleTrimClosure (sampleRange "6" "4")).
  vm_compute; reflexivity.
Defined.

(** C5 as stated fails: "abc" for the start and "-1" for the start give the
    same alert, although the first violates only the numeric bound and the
    second only the sign bound, so that no reading of the message names the
    bound. *)
Lemma C5_counterexample : ~ exists name, namesTheBound name.
Proof.
  intros [name Hname].
  pose proof (Hname sampleTrimClosure (sampleRange "abc" "1") (num_of_Z 10)
                "Please enter valid positive numbers for start and end times.") as Habc.
  pose proof (Hname sampleTrimClosure (sampleRange "-1" "1") (num_of_Z 10)
                "Please enter valid positive numbers for start and end times.") as Hneg.
  assert (violated (name "Please enter valid positive numbers for start and end times.")
            (startTime sampleTrimClosure (sampleRange "abc" "1"))
            (endTime sampleTrimClosure (sampleRange "abc" "1")) (num_of_Z 10) = true) as Ha
    by (apply Habc; vm_compute; reflexivity).
  assert (violated (name "Please enter valid positive numbers for start and end times.")
            (startTime sampleTrimClosure (sampleRange "-1" "1"))
            (endTime sampleTrimClosure (sampleRange "-1" "1")) (num_of_Z 10) = true) as Hn
    by (apply Hneg; vm_compute; reflexivity).
  clear Habc Hneg Hname.
  destruct (name "Please enter valid positive numbers for start and end times.");
    vm_compute in Ha, Hn; congruence.
Qed.

Lemma C5_not_a_positive_number_witness :
  truthy (load (sampleRange "abc" "1") (trim.currentVideoFilename sampleTrimClosure)) = true /\
  isNaN (startTime sampleTrimClosure (sampleRange "abc" "1")) = true /\
  onlyAlerts "Please enter valid positive numbers for start and end times."
    (sampleRange "abc" "1") (trimClickHandler sampleTrimClosure (sampleRange "abc" "1")).
Proof.
  split; [vm_compute; reflexivity|]. split; [vm_compute; reflexivity|].
  apply (C5_not_a_positive_number sampleTrimClosure (sampleRange "abc" "1"));
    vm_compute; reflexivity.
Defined.

(** ** Who writes [currentVideoFilename] *)

Section Pointer.
Context `{Host}.

Lemma heap_trimClickHandler c w : heap (trimClickHandler c w) = heap w.
Proof. unfold trimClickHandler. by repeat case_match. Qed.

Lemma heap_uploadClickHandler c w : heap (uploadClickHandler c w) = heap w.
Proof. unfold uploadClickHandler. by repeat case_match. Qed.

Lemma heap_fileChangeHandler c w : heap (fileChangeHandler c w) = heap w.
Proof. unfold fileChangeHandler. by repeat case_match. Qed.

Lemma heap_runHandler h w : heap (runHandler h w) = heap w.
Proof.
  destruct h; simpl;
    auto using heap_trimClickHandler, heap_uploadClickHandler, heap_fileChangeHandler.
Qed.

Lemma heap_dispatch ty i w : heap (dispatch ty i w) = heap w.
Proof.
  unfold dispatch. generalize (listeners w) as ls. intros ls. revert w.
  induction ls as [|l ls IH]; intros w; simpl; [done|].
  rewrite IH. case_match; [apply heap_runHandler | done].
Qed.

(** The second [then] callback writes the variable only on a truthy
    [success] and a truthy file name. *)
Lemma heap_trimThen c data w :
  truthy_opt (field "success" data) && truthy_opt (field "trimmed_filename" data) = false ->
  heap (catching trimCatch (trimThen c data w)) = heap w.
Proof.
  unfold trimThen. destruct (toString _) as [message|]; [|done].
  destruct (field "trimmed_filename" data) as [v|]; simpl; [|done].
  intros ->. done.
Qed.

Lemma heap_uploadThen c data w :
  truthy_opt (field "success" data) && truthy_opt (field "filename" data) = false ->
  heap (catching uploadCatch (uploadThen c data w)) = heap w.
Proof.
  unfold uploadThen. destruct (toString _) as [message|]; [|done].
  destruct (field "filename" data) as [v|]; simpl; [|done].
  intros ->. done.
Qed.

Lemma heap_settle_failure p o w :
  succeeds (filenameKey p) o = false -> heap (settle p o w) = heap w.
Proof.
  destruct p as [c|c]; simpl; unfold trimSettle, uploadSettle, trimCallbacks, uploadCallbacks;
    destruct o as [m|[|] [m|data]]; simpl; try done.
  - intros Hf. destruct data; simpl; try done; by rewrite heap_trimThen.
  - destruct data; done.
  - intros Hf. destruct data; simpl; try done; by rewrite heap_uploadThen.
  - destruct data; done.
Qed.

(** C3: the [currentVideoFilename] variables change only on the successful
    reply to an upload or trim request. Any other event leaves every one of
    them as it was: a click, a file selection, typing, and the settling of a
    request that failed (network error, non-ok response, body that is not
    JSON, [success] false, file name missing or empty). *)
Theorem C3_pointer_written_only_on_success w ev :
  successfulReply w ev = false -> heap (step w ev) = heap w.
Proof.
  destruct ev as [i|i fs|i text|k o]; simpl.
  - intros _. case_match; [done | apply heap_dispatch].
  - intros _. case_match; [done | by rewrite heap_dispatch].
  - intros _. by case_match.
  - destruct (pending w !! k) as [p|]; [|done].
    intros Hf. by rewrite heap_settle_failure.
Qed.

Lemma heap_run_unsuccessful w evs :
  unsuccessful w evs = true -> heap (run w evs) = heap w.
Proof.
  revert w. induction evs as [|ev evs IH]; intros w; simpl; [done|].
  intros [Hev Hrest]%andb_prop. apply negb_true_iff in Hev.
  rewrite IH by done. destruct ev as [i|i fs|i text|k o]; simpl in *.
  - case_match; [done | apply heap_dispatch].
  - case_match; [done | by rewrite heap_dispatch].
  - by case_match.
  - destruct (pending w !! k) as [p|]; [|done]. by rewrite heap_settle_failure.
Qed.

End Pointer.

Lemma C3_pointer_written_only_on_success_witness :
  successfulReply uploading (Settle 0 (refusal "No file part")) = false /\
  heap (step uploading (Settle 0 (refusal "No file part"))) = heap uploading.
Proof.
  split; [vm_compute; reflexivity|].
  apply (C3_pointer_written_only_on_success uploading (Settle 0 (refusal "No file part"))).
  vm_compute; reflexivity.
Defined.

(** ** Element references stay sound *)

Lemma indexOf_lookup id idl i : indexOf id idl = Some i -> idl !! i = Some id.
Proof.
  revert i. induction idl as [|x r IH]; intros i; simpl; [done|].
  destruct (String.eqb x id) eqn:Hx.
  - intros [= <-]. simpl. f_equal. by apply String.eqb_eq.
  - destruct (indexOf id r) as [j|]; simpl; [|done].
    intros [= <-]. simpl. by apply IH.
Qed.

Lemma getElementById_Some id d i :
  getElementById id d = Some i -> exists e, d !! i = Some e /\ elemId e = id.
Proof.
  unfold getElementById. case_match; [done|].
  intros Hi%indexOf_lookup. rewrite list_lookup_fmap in Hi.
  destruct (d !! i) as [e|]; simplify_eq/=. by exists e.
Qed.

Lemma getElementById_lt id d i : getElementById id d = Some i -> i < length d.
Proof. intros (e & He & _)%getElementById_Some. by eapply lookup_lt_Some. Qed.

Lemma getElementById_ids id d d' :
  (elemId <$> d') = (elemId <$> d) -> getElementById id d' = getElementById id d.
Proof. unfold getElementById. by intros ->. Qed.

Lemma ids_alter f i (d : Document) :
  keepsId f -> (elemId <$> (alter f i d)) = (elemId <$> d).
Proof.
  intros Hf. revert i. induction d as [|e d IH]; intros [|i]; simpl; [done..| |].
  - by rewrite Hf.
  - f_equal. apply IH.
Qed.

Lemma keepsId_classList g : keepsId (with_classList g).
Proof. done. Qed.
Lemma keepsId_disabled b : keepsId (with_disabled b).
Proof. done. Qed.
Lemma keepsId_value s : keepsId (with_value s).
Proof. done. Qed.
Lemma keepsId_textContent s : keepsId (with_textContent s).
Proof. done. Qed.
Lemma keepsId_src s : keepsId (with_src s).
Proof. done. Qed.
Lemma keepsId_innerHTML s : keepsId (with_innerHTML s).
Proof. done. Qed.
Lemma keepsId_files fs : keepsId (with_files fs).
Proof. done. Qed.

Create HintDb page discriminated.
#[local] Hint Resolve keepsId_classList keepsId_disabled keepsId_value keepsId_textContent
  keepsId_src keepsId_innerHTML keepsId_files : page.

Lemma ids_classList_add cls i d :
  (elemId <$> (classList_add cls i d)) = (elemId <$> d).
Proof. apply ids_alter, keepsId_classList. Qed.

Lemma ids_classList_remove cls i d :
  (elemId <$> (classList_remove cls i d)) = (elemId <$> d).
Proof. apply ids_alter, keepsId_classList. Qed.

Lemma ids_showTarget tab d : (elemId <$> (showTarget tab d)) = (elemId <$> d).
Proof. unfold showTarget. case_match; [apply ids_classList_add | done]. Qed.

Lemma ids_foldl_remove cls l d :
  (elemId <$> (foldl (fun d t => classList_remove cls t d) d l)) = (elemId <$> d).
Proof.
  revert d. induction l as [|t l IH]; intros d; simpl; [done|].
  by rewrite IH, ids_classList_remove.
Qed.

Lemma ids_tabClickHandler navTabs tabContents tab d :
  (elemId <$> (tabClickHandler navTabs tabContents tab d)) = (elemId <$> d).
Proof.
  unfold tabClickHandler.
  by rewrite ids_showTarget, ids_classList_add, !ids_foldl_remove.
Qed.

Lemma trimClosureOk_mono d n m c : n <= m -> trimClosureOk d n c -> trimClosureOk d m c.
Proof. unfold trimClosureOk. intros ? (?&?&?&?&?&?). repeat split; [done..|lia]. Qed.

Lemma uploadClosureOk_mono d n m c : n <= m -> uploadClosureOk d n c -> uploadClosureOk d m c.
Proof. unfold uploadClosureOk. intros ? (?&?&?&?&?&?). repeat split; [done..|lia]. Qed.

Lemma handlerOk_mono d n m h : n <= m -> handlerOk d n h -> handlerOk d m h.
Proof. destruct h; simpl; eauto using trimClosureOk_mono, uploadClosureOk_mono. Qed.

Lemma pendingOk_mono d n m p : n <= m -> pendingOk d n p -> pendingOk d m p.
Proof. destruct p; simpl; eauto using trimClosureOk_mono, uploadClosureOk_mono. Qed.

Section WellFormed.
Context `{Host}.
Variable d : Document.

Lemma wf_setProp i f w : keepsId f -> wellFormed d w -> wellFormed d (setProp i f w).
Proof.
  intros Hf [Hi Hl Hp]. split; simpl; [|done..].
  by rewrite ids_alter.
Qed.

Lemma wf_onDocument g w :
  (forall d', (elemId <$> (g d')) = (elemId <$> d')) ->
  wellFormed d w -> wellFormed d (onDocument g w).
Proof. intros Hg [Hi Hl Hp]. split; simpl; [|done..]. by rewrite Hg. Qed.

Lemma wf_alert msg w : wellFormed d w -> wellFormed d (alert msg w).
Proof. by intros [Hi Hl Hp]. Qed.

Lemma wf_fetch url body p w :
  pendingOk d (length (heap w)) p -> wellFormed d w -> wellFormed d (fetch url body p w).
Proof.
  intros Hok [Hi Hl Hp]. split; simpl; [done..|].
  apply Forall_app. split; [done|]. by apply Forall_singleton.
Qed.

Lemma wf_addEventListener l w :
  handlerOk d (length (heap w)) (handler l) ->
  wellFormed d w -> wellFormed d (addEventListener l w).
Proof.
  intros Hok [Hi Hl Hp]. split; simpl; [done| |done].
  apply Forall_app. split; [done|]. by apply Forall_singleton.
Qed.

Lemma wf_store a v w : wellFormed d w -> wellFormed d (store a v w).
Proof. intros [Hi Hl Hp]. split; simpl; [done|..]; by rewrite length_insert. Qed.

Lemma wf_alloc v w : wellFormed d w -> wellFormed d (alloc v w).2.
Proof.
  intros [Hi Hl Hp]. split; simpl; [done|..]; rewrite length_app; simpl.
  - eapply Forall_impl; [exact Hl|]. intros l. apply handlerOk_mono. lia.
  - eapply Forall_impl; [exact Hp|]. intros p. apply pendingOk_mono. lia.
Qed.

Lemma wf_removePending k w : wellFormed d w -> wellFormed d (removePending k w).
Proof.
  intros [Hi Hl Hp]. split; simpl; [done..|].
  apply Forall_forall. intros p Hin%list_elem_of_delete_inv.
  by eapply (proj1 (Forall_forall _ _) Hp).
Qed.

End WellFormed.

Section Invariant.
Context `{Host}.
Variable d : Document.

#[local] Hint Resolve wf_setProp wf_alert wf_store wf_removePending : page.

Lemma wf_trimClickHandler c w :
  trimClosureOk d (length (heap w)) c ->
  wellFormed d w -> wellFormed d (trimClickHandler c w).
Proof.
  intros Hc Hw. unfold trimClickHandler.
  repeat case_match; auto with page.
  apply wf_fetch; auto 6 with page.
Qed.

Lemma wf_uploadClickHandler c w :
  uploadClosureOk d (length (heap w)) c ->
  wellFormed d w -> wellFormed d (uploadClickHandler c w).
Proof.
  intros Hc Hw. unfold uploadClickHandler.
  case_match; auto with page.
  apply wf_fetch; auto 6 with page.
Qed.

Lemma wf_fileChangeHandler c w :
  wellFormed d w -> wellFormed d (fileChangeHandler c w).
Proof. intros Hw. unfold fileChangeHandler. case_match; auto 8 with page. Qed.

Lemma wf_runHandler h w :
  handlerOk d (length (heap w)) h -> wellFormed d w -> wellFormed d (runHandler h w).
Proof.
  destruct h; simpl; intros Hh Hw.
  - apply wf_onDocument; [|done]. intros d'. apply ids_tabClickHandler.
  - by apply wf_trimClickHandler.
  - by apply wf_uploadClickHandler.
  - by apply wf_fileChangeHandler.
Qed.

Lemma wf_dispatch ty i w : wellFormed d w -> wellFormed d (dispatch ty i w).
Proof.
  intros Hw. unfold dispatch.
  assert (Forall (fun l => handlerOk d (length (heap w)) (handler l)) (listeners w)) as Hls
    by apply Hw.
  revert Hls. generalize (listeners w) as ls. intros ls. revert w Hw.
  induction ls as [|l ls IH]; intros w Hw Hls; simpl; [done|].
  apply Forall_cons in Hls as [Hl Hls].
  case_match.
  - apply IH; [by apply wf_runHandler | by rewrite heap_runHandler].
  - by apply IH.
Qed.

Lemma wf_initializeVideoTrimming v w :
  wellFormed d w -> wellFormed d (initializeVideoTrimming v w).
Proof.
  intros Hw. unfold initializeVideoTrimming, callInitializeVideoTrimming.
  pose proof (wf_alloc d (default JNull v) w Hw) as Ha.
  rewrite !(getElementById_ids _ d (document w)) by apply Hw.
  destruct (alloc (default JNull v) w) as [a w'] eqn:Hal. simpl in Ha.
  assert (a < length (heap w')) as Hlt.
  { injection Hal as <- <-. simpl. rewrite length_app. simpl. lia. }
  repeat case_match; unfold stateOf; try done; try (by auto 6 with page);
    (apply wf_addEventListener; auto 6 with page);
    unfold handlerOk, trimClosureOk; simpl; repeat split; (done || lia).
Qed.

Lemma wf_catching handler r :
  (forall m w, wellFormed d w -> wellFormed d (handler m w)) ->
  wellFormed d (stateOf r) -> wellFormed d (catching handler r).
Proof. intros Hh. destruct r; simpl; auto. Qed.

Lemma wf_trimCallbacks c o w : wellFormed d w -> wellFormed d (trimCallbacks c o w).
Proof.
  intros Hw. unfold trimCallbacks, trimCatch.
  repeat case_match; try (by auto 10 with page);
    (apply wf_catching; [by auto with page|]);
    unfold trimThen; repeat case_match; unfold stateOf; auto 10 with page.
Qed.

Lemma wf_trimSettle c o w : wellFormed d w -> wellFormed d (trimSettle c o w).
Proof.
  intros Hw%(wf_trimCallbacks c o). unfold trimSettle, trimFinally. auto 10 with page.
Qed.

Lemma wf_uploadCallbacks c o w : wellFormed d w -> wellFormed d (uploadCallbacks c o w).
Proof.
  intros Hw. unfold uploadCallbacks, uploadCatch.
  repeat case_match; try (by auto 10 with page);
    (apply wf_catching; [by auto with page|]);
    unfold uploadThen; repeat case_match; unfold stateOf; try (by auto 10 with page);
    apply wf_initializeVideoTrimming; auto 10 with page.
Qed.

Lemma wf_uploadSettle c o w : wellFormed d w -> wellFormed d (uploadSettle c o w).
Proof.
  intros Hw%(wf_uploadCallbacks c o). unfold uploadSettle, uploadFinally. auto 10 with page.
Qed.

Lemma wf_step w ev : wellFormed d w -> wellFormed d (step w ev).
Proof.
  intros Hw. destruct ev as [i|i fs|i text|k o]; simpl.
  - case_match; [done | by apply wf_dispatch].
  - case_match; [done | apply wf_dispatch; auto with page].
  - case_match; auto with page.
  - destruct (pending w !! k) as [[c|c]|]; simpl; [| |done].
    + apply wf_trimSettle; auto with page.
    + apply wf_uploadSettle; auto with page.
Qed.

Lemma wf_initializeFileUpload w :
  (elemId <$> document w) = (elemId <$> d) -> heap w = [] -> pending w = [] ->
  Forall (fun l => handlerOk d 1 (handler l)) (listeners w) ->
  wellFormed d (initializeFileUpload w).
Proof.
  intros Hi Hh Hp Hl. unfold initializeFileUpload.
  rewrite !(getElementById_ids _ d (document w)) by done.
  assert (wellFormed d (alloc JNull w).2) as Hw.
  { split; simpl; [done| |by rewrite Hp]. by rewrite Hh. }
  unfold alloc in *. simpl in *.
  repeat case_match; try done.
  apply wf_setProp; [done|].
  apply wf_addEventListener;
    [simpl; rewrite Hh; unfold uploadClosureOk; simpl; repeat split; (done || lia)|].
  apply wf_addEventListener;
    [simpl; rewrite Hh; unfold uploadClosureOk; simpl; repeat split; (done || lia)|].
  done.
Qed.

Lemma register_tabs_frame navTabs tabContents ts w :
  let reg := fun (w : World) (tab : nat) =>
    addEventListener {| target := tab; on := click;
                        handler := TabClick navTabs tabContents tab |} w in
  document (foldl reg w ts) = document w /\ heap (foldl reg w ts) = heap w /\
  pending (foldl reg w ts) = pending w /\
  (Forall (fun l => handlerOk d 1 (handler l)) (listeners w) ->
   Forall (fun l => handlerOk d 1 (handler l)) (listeners (foldl reg w ts))).
Proof.
  intros reg. revert w. induction ts as [|t ts IH]; intros w; simpl; [done|].
  destruct (IH (reg w t)) as (Hd & Hh & Hp & Hl). repeat split; [done..|].
  intros Hl0. apply Hl. simpl. apply Forall_app. split; [done|].
  by apply Forall_singleton.
Qed.

Lemma initializeTabNavigation_frame w :
  (elemId <$> document (initializeTabNavigation w)) = (elemId <$> document w) /\
  heap (initializeTabNavigation w) = heap w /\
  pending (initializeTabNavigation w) = pending w /\
  (Forall (fun l => handlerOk d 1 (handler l)) (listeners w) ->
   Forall (fun l => handlerOk d 1 (handler l)) (listeners (initializeTabNavigation w))).
Proof.
  unfold initializeTabNavigation.
  destruct (register_tabs_frame (querySelectorAll "nav-tab" (document w))
              (querySelectorAll "tab-content" (document w))
              (querySelectorAll "nav-tab" (document w)) w) as (Hd & Hh & Hp & Hl).
  simpl in *. revert Hd Hh Hp Hl.
  generalize (foldl (fun (w0 : World) (tab : nat) =>
    addEventListener {| target := tab; on := click;
      handler := TabClick (querySelectorAll "nav-tab" (document w))
                   (querySelectorAll "tab-content" (document w)) tab |} w0) w
    (querySelectorAll "nav-tab" (document w))) as w1.
  intros w1 Hd Hh Hp Hl. rewrite Hd.
  destruct (querySelector2 "nav-tab" "active" (document w)) as [t|];
    [|destruct (querySelectorAll "nav-tab" (document w)) as [|t ts]]; simpl;
    rewrite ?ids_showTarget, ?ids_classList_add, ?Hd; done.
Qed.

Lemma wf_pageLoad : wellFormed d (pageLoad d).
Proof.
  unfold pageLoad. apply wf_initializeVideoTrimming.
  destruct (initializeTabNavigation_frame (emptyWorld d)) as (Hd & Hh & Hp & Hl).
  apply wf_initializeFileUpload; [done..|]. by apply Hl.
Qed.

(** Every state the page reaches is well formed. *)
Lemma Reachable_wellFormed w : Reachable d w -> wellFormed d w.
Proof. induction 1; [apply wf_pageLoad | by apply wf_step]. Qed.

(** The page loads with the two variables of [initializeFileUpload] and
    [initializeVideoTrimming], both null. *)
Lemma heap_pageLoad : heap (pageLoad d) = [JNull; JNull].
Proof.
  unfold pageLoad.
  destruct (initializeTabNavigation_frame (emptyWorld d)) as (_ & Htab & _).
  assert (heap (initializeFileUpload (initializeTabNavigation (emptyWorld d))) = [JNull])
    as Hup.
  { unfold initializeFileUpload, alloc. repeat case_match; simpl; by rewrite Htab. }
  revert Hup. generalize (initializeFileUpload (initializeTabNavigation (emptyWorld d))).
  intros w Hup.
  unfold initializeVideoTrimming, callInitializeVideoTrimming, alloc.
  repeat case_match; simpl; by rewrite Hup.
Qed.

(** Before any successful reply, every variable is still null, so that a
    trim click can only alert that no video was uploaded. *)
Lemma no_video_before_success evs a :
  unsuccessful (pageLoad d) evs = true ->
  truthy (load (run (pageLoad d) evs) a) = false.
Proof.
  intros Hevs%heap_run_unsuccessful. unfold load. rewrite Hevs, heap_pageLoad.
  by destruct a as [|[|a]].
Qed.

End Invariant.

(** The sample states are states of the sample page. *)

Lemma Reachable_run `{Host} d w evs : Reachable d w -> Reachable d (run w evs).
Proof.
  revert w. induction evs as [|ev evs IH]; intros w Hw; simpl; [done|].
  apply IH. by apply reach_step.
Qed.

Lemma Reachable_uploading : Reachable samplePage uploading.
Proof. apply Reachable_run, reach_load. Defined.

Lemma Reachable_trimming : Reachable samplePage trimming.
Proof. repeat apply Reachable_run. apply reach_load. Defined.

(** ** Reading a property after writes *)

Lemma propAt_alter_keep {A} (g : Element -> A) f j (d : Document) i :
  (forall e, g (f e) = g e) -> propAt g (alter f j d) i = propAt g d i.
Proof.
  intros Hg. unfold propAt. destruct (decide (j = i)) as [->|Hne].
  - rewrite list_lookup_alter_eq. destruct (d !! i); cbn; [f_equal; apply Hg | done].
  - by rewrite list_lookup_alter_ne.
Qed.

Lemma propAt_alter_set {A} (g : Element -> A) f i (d : Document) a :
  (forall e, g (f e) = a) -> i < length d -> propAt g (alter f i d) i = Some a.
Proof.
  intros Hg [e He]%lookup_lt_is_Some. unfold propAt.
  rewrite list_lookup_alter_eq, He. cbn. f_equal. apply Hg.
Qed.

Lemma propAt_alter_const {A} (g : Element -> A) f j (d : Document) i a :
  (forall e, g (f e) = a) -> propAt g d i = Some a -> propAt g (alter f j d) i = Some a.
Proof.
  intros Hg. unfold propAt. destruct (decide (j = i)) as [->|Hne].
  - rewrite list_lookup_alter_eq. destruct (d !! i); cbn; [|done].
    intros _. f_equal. apply Hg.
  - by rewrite list_lookup_alter_ne.
Qed.

Lemma contains_remove cls l : contains cls (remove cls l) = false.
Proof.
  unfold contains, remove. induction l as [|x l IH]; simpl; [done|].
  destruct (String.eqb cls x) eqn:Hx; simpl; [done|]. by rewrite Hx.
Qed.

Lemma wellFormed_length d w : wellFormed d w -> length (document w) = length d.
Proof. intros [Hi _ _]. by rewrite <- (length_fmap elemId), Hi, length_fmap. Qed.

Section Finally.
Context `{Host}.

Lemma trimFinally_button c w :
  trim.trimVideoButton c < length (document w) ->
  exists btn,
    document (trimFinally c w) !! trim.trimVideoButton c = Some btn /\
    contains "loading" (classList btn) = false /\ disabled btn = false /\
    textContent btn = "Trim Video".
Proof.
  intros [e He]%lookup_lt_is_Some. unfold trimFinally. simpl.
  rewrite !list_lookup_alter_eq, He. simpl. eexists. split; [done|].
  simpl. by rewrite contains_remove.
Qed.

Lemma uploadFinally_button c w :
  upload.uploadButton c < length (document w) ->
  exists btn,
    document (uploadFinally c w) !! upload.uploadButton c = Some btn /\
    contains "loading" (classList btn) = false /\ disabled btn = false /\
    textContent btn = "Upload Video".
Proof.
  intros [e He]%lookup_lt_is_Some. unfold uploadFinally. simpl.
  rewrite !list_lookup_alter_eq, He. simpl. eexists. split; [done|].
  simpl. by rewrite contains_remove.
Qed.

(** C10: when the promise chain of a trim or upload request settles, on any
    outcome (a successful reply, a refusal, a body that is not JSON, a
    network error), the button that started it has lost its 'loading'
    class, is enabled, and carries its resting label ('Trim Video' or
    'Upload Video'). *)
Theorem C10_button_restored d w k o p :
  Reachable d w -> pending w !! k = Some p ->
  exists btn,
    document (step w (Settle k o)) !! triggeringButton p = Some btn /\
    contains "loading" (classList btn) = false /\ disabled btn = false /\
    textContent btn = restingLabel p.
Proof.
  intros Hw%Reachable_wellFormed Hp. simpl. rewrite Hp.
  pose proof (proj1 (Forall_lookup _ _) (wf_pending _ _ Hw) k p Hp) as Hok.
  apply (wf_removePending d k) in Hw.
  destruct p as [c|c]; simpl in *.
  - destruct Hok as (_ & _ & Hb%getElementById_lt & _).
    apply trimFinally_button.
    by rewrite (wellFormed_length d) by by apply wf_trimCallbacks.
  - destruct Hok as (_ & Hb%getElementById_lt & _).
    apply uploadFinally_button.
    by rewrite (wellFormed_length d) by by apply wf_uploadCallbacks.
Qed.

End Finally.

Lemma C10_button_restored_witness :
  pending trimming !! 0 = Some (TrimChain sampleTrimClosure) /\
  exists btn,
    document (step trimming (Settle 0 (NetworkError "Failed to fetch")))
      !! triggeringButton (TrimChain sampleTrimClosure) = Some btn /\
    contains "loading" (classList btn) = false /\ disabled btn = false /\
    textContent btn = restingLabel (TrimChain sampleTrimClosure).
Proof.
  assert (pending trimming !! 0 = Some (TrimChain sampleTrimClosure)) as Hp
    by (vm_compute; reflexivity).
  split; [exact Hp|].
  exact (C10_button_restored samplePage trimming 0 (NetworkError "Failed to fetch")
           (TrimChain sampleTrimClosure) Reachable_trimming Hp).
Defined.

(** ** A successful upload *)

Section Upload.
Context `{Host}.

Lemma load_alloc v w : load (alloc v w).2 (alloc v w).1 = v.
Proof. unfold load, alloc. simpl. by rewrite lookup_app_r, Nat.sub_diag by lia. Qed.

Lemma load_store a v w : a < length (heap w) -> load (store a v w) a = v.
Proof. intros Ha. unfold load, store. simpl. by rewrite list_lookup_insert_eq. Qed.

Lemma load_setProp i f w a : load (setProp i f w) a = load w a.
Proof. done. Qed.

#[local] Hint Resolve wf_setProp wf_alert wf_store wf_removePending : page.

(** What [initializeVideoTrimming(filename)] does when the document has the
    five elements, for a truthy [filename] that converts to a string. *)
Lemma callInitializeVideoTrimming_enables filename name w s e b a v :
  truthy filename = true -> toString filename = Some name ->
  getElementById "start-second" (document w) = Some s ->
  getElementById "end-second" (document w) = Some e ->
  getElementById "trim-video-button" (document w) = Some b ->
  getElementById "video-preview-area" (document w) = Some a ->
  getElementById "video-preview" (document w) = Some v ->
  exists w',
    callInitializeVideoTrimming (Some filename) w = Normal w' /\
    heap w' = (heap w ++ [filename])%list /\
    listeners w' =
      (listeners w ++
       [{| target := b; on := click;
           handler := TrimClick
             {| trim.startSecondInput := s; trim.endSecondInput := e;
                trim.trimVideoButton := b; trim.videoPreviewArea := a;
                trim.videoElement := v;
                trim.currentVideoFilename := length (heap w) |} |}])%list /\
    propAt disabled (document w') s = Some false /\
    propAt disabled (document w') e = Some false /\
    propAt disabled (document w') b = Some false /\
    (forall i, propAt src (document w') i = propAt src (document w) i).
Proof.
  intros Hv Hname Hs He Hb Ha Hvid. unfold callInitializeVideoTrimming.
  rewrite Hs, He, Hb, Ha, Hvid.
  pose proof (load_alloc filename w) as Hload.
  unfold alloc in *. simpl in *. rewrite Hload, Hv. rewrite !load_setProp, Hload, Hname.
  apply getElementById_lt in Hs, He, Hb.
  eexists. split; [done|]. simpl. repeat split.
  - apply propAt_alter_const; [done|]. apply propAt_alter_const; [done|].
    by apply propAt_alter_set.
  - apply propAt_alter_const; [done|]. apply propAt_alter_set; [done|].
    by rewrite length_alter.
  - apply propAt_alter_set; [done|]. by rewrite !length_alter.
  - intros i. by rewrite !propAt_alter_keep.
Qed.

(** Whatever it finds, a call leaves the variables it found and the preview
    source as they were, and creates its own variable. *)
Lemma callInitializeVideoTrimming_frame v w :
  heap (stateOf (callInitializeVideoTrimming v w)) = (heap w ++ [default JNull v])%list /\
  (forall i, propAt src (document (stateOf (callInitializeVideoTrimming v w))) i
               = propAt src (document w) i).
Proof.
  unfold callInitializeVideoTrimming, alloc.
  repeat case_match; simpl; (split; [done|]); intros i;
    by rewrite ?propAt_alter_keep by done.
Qed.

(** C6, as amended: on a 2xx reply to /upload_video whose body has a truthy
    [success] and a truthy [filename], and whose message and file name have a
    string conversion, the handler stores the name in its
    [currentVideoFilename], points the preview element it holds at
    '/get_video/<filename>', and calls [initializeVideoTrimming(filename)],
    which, when the document then has the five elements of the trim form,
    enables the two inputs and the button it finds and registers a trim
    listener holding that name. *)
Theorem C6_upload_success w k c data filename message name :
  pending w !! k = Some (UploadChain c) ->
  truthy_opt (field "success" data) = true ->
  field "filename" data = Some filename -> truthy filename = true ->
  toString (or_else (field "message" data) (JStr "File uploaded successfully!"))
    = Some message ->
  toString filename = Some name ->
  upload.currentVideoFilename c < length (heap w) ->
  upload.videoElement c < length (document w) ->
  let w' := step w (Settle k (Response true (Json data))) in
  heap w' !! upload.currentVideoFilename c = Some filename /\
  propAt src (document w') (upload.videoElement c) = Some ("/get_video/" ++ name) /\
  forall s e b a v,
    getElementById "start-second" (document w) = Some s ->
    getElementById "end-second" (document w) = Some e ->
    getElementById "trim-video-button" (document w) = Some b ->
    getElementById "video-preview-area" (document w) = Some a ->
    getElementById "video-preview" (document w) = Some v ->
    propAt disabled (document w') s = Some false /\
    propAt disabled (document w') e = Some false /\
    propAt disabled (document w') b = Some false /\
    exists tc,
      last (listeners w') = Some {| target := b; on := click; handler := TrimClick tc |} /\
      heap w' !! trim.currentVideoFilename tc = Some filename.
Proof.
  intros Hp Hsuc Hfn Htr Hmsg Hname Hcell Hvid. simpl. rewrite Hp. simpl.
  change (length (heap w)) with (length (heap (removePending k w))) in Hcell.
  change (document w) with (document (removePending k w)) in Hvid |- *.
  revert Hcell Hvid. generalize (removePending k w) as w0. intros w0 Hcell Hvid.
  unfold uploadSettle, uploadCallbacks. simpl.
  assert (catching uploadCatch (uploadThen c data w0) =
          match data with
          | JNull => uploadCatch (nullPropertyMessage "message") w0
          | _ => catching uploadCatch (uploadThen c data w0)
          end) as <-.
  { by destruct data. }
  unfold uploadThen. rewrite Hmsg, Hfn, Hsuc, Htr. simpl.
  set (w1 := alert message w0).
  assert (upload.currentVideoFilename c < length (heap w1)) as Hc1 by done.
  assert (document w1 = document w0) as Hd1 by done.
  clearbody w1.
  rewrite !(load_store _ _ w1 Hc1), Hname. rewrite !load_setProp, !(load_store _ _ w1 Hc1).
  match goal with
  | |- context [callInitializeVideoTrimming _ ?w] => set (w4 := w)
  end.
  assert (heap w4 = <[upload.currentVideoFilename c := filename]> (heap w1)) as Hh4 by done.
  assert ((elemId <$> document w4) = (elemId <$> document w0)) as Hids.
  { subst w4. simpl. by rewrite !ids_alter, Hd1 by done. }
  assert (propAt src (document w4) (upload.videoElement c)
          = Some ("/get_video/" ++ name)) as Hsrc.
  { subst w4. simpl. rewrite propAt_alter_keep by done.
    apply propAt_alter_set; [done|]. by rewrite Hd1. }
  clearbody w4.
  destruct (callInitializeVideoTrimming_frame (Some filename) w4) as (Hheap & Hsrcs).
  assert (forall r, stateOf r = catching uploadCatch r \/
                    exists m, catching uploadCatch r = alert m (stateOf r)) as Hcatch.
  { intros [w5|m w5]; simpl; [by left | right; by eexists]. }
  split; [|split].
  - unfold uploadFinally. simpl.
    destruct (Hcatch (callInitializeVideoTrimming (Some filename) w4)) as [<-|(m & ->)];
      simpl; rewrite Hheap, Hh4;
      (rewrite lookup_app_l by (by rewrite length_insert));
      by rewrite list_lookup_insert_eq.
  - unfold uploadFinally. simpl. rewrite !propAt_alter_keep by done.
    destruct (Hcatch (callInitializeVideoTrimming (Some filename) w4)) as [<-|(m & ->)];
      simpl; by rewrite Hsrcs.
  - intros s e b a v Hs He Hb Ha Hv.
    rewrite <- (getElementById_ids "start-second" _ _ Hids) in Hs.
    rewrite <- (getElementById_ids "end-second" _ _ Hids) in He.
    rewrite <- (getElementById_ids "trim-video-button" _ _ Hids) in Hb.
    rewrite <- (getElementById_ids "video-preview-area" _ _ Hids) in Ha.
    rewrite <- (getElementById_ids "video-preview" _ _ Hids) in Hv.
    destruct (callInitializeVideoTrimming_enables filename name w4 s e b a v
                Htr Hname Hs He Hb Ha Hv)
      as (w5 & -> & Hh & Hl & Hps & Hpe & Hpb & _).
    unfold uploadFinally. simpl.
    assert (forall i, propAt disabled (document w5) i = Some false ->
              propAt disabled
                (alter (with_textContent "Upload Video") (upload.uploadButton c)
                   (alter (with_disabled false) (upload.uploadButton c)
                      (alter (with_classList (remove "loading")) (upload.uploadButton c)
                         (document w5)))) i
                = Some false) as Hkeep.
    { intros i Hi. rewrite propAt_alter_keep by done.
      apply propAt_alter_const; [done|]. by rewrite propAt_alter_keep by done. }
    split; [by apply Hkeep|]. split; [by apply Hkeep|]. split; [by apply Hkeep|].
    eexists. rewrite Hl, last_snoc. split; [done|].
    rewrite Hh. simpl. by rewrite lookup_app_r, Nat.sub_diag by lia.
Qed.

End Upload.

(** C6 as stated fails: a 2xx reply with [success: true] and a [filename]
    field whose message has no string conversion, or whose file name is the
    empty string, leaves the variable null, the preview without a source and
    the trim button (element 11) disabled. *)
Lemma C6_counterexample :
  pending uploading !! 0 = Some (UploadChain sampleUploadClosure) /\
  (truthy_opt (field "success" unprintableMessage) = true /\
   field "filename" unprintableMessage = Some (JStr "a.mp4") /\
   heap (step uploading (Settle 0 (Response true (Json unprintableMessage)))) !! 0
     = Some JNull /\
   propAt src (document (step uploading (Settle 0 (Response true (Json unprintableMessage))))) 7
     = Some "" /\
   propAt disabled
     (document (step uploading (Settle 0 (Response true (Json unprintableMessage))))) 11
     = Some true) /\
  (truthy_opt (field "success" emptyName) = true /\
   field "filename" emptyName = Some (JStr "") /\
   heap (step uploading (Settle 0 (Response true (Json emptyName)))) !! 0 = Some JNull /\
   propAt src (document (step uploading (Settle 0 (Response true (Json emptyName))))) 7
     = Some "" /\
   propAt disabled (document (step uploading (Settle 0 (Response true (Json emptyName))))) 11
     = Some true).
Proof. repeat split; vm_compute; reflexivity. Qed.

Lemma C6_upload_success_witness :
  pending uploading !! 0 = Some (UploadChain sampleUploadClosure) /\
  heap (step uploading (Settle 0 (okReply "filename" "a.mp4"))) !! 0 = Some (JStr "a.mp4") /\
  propAt src (document (step uploading (Settle 0 (okReply "filename" "a.mp4")))) 7
    = Some "/get_video/a.mp4" /\
  propAt disabled (document (step uploading (Settle 0 (okReply "filename" "a.mp4")))) 11
    = Some false.
Proof.
  assert (pending uploading !! 0 = Some (UploadChain sampleUploadClosure)) as Hp
    by (vm_compute; reflexivity).
  assert (upload.currentVideoFilename sampleUploadClosure < length (heap uploading)) as Hc
    by (vm_compute; lia).
  assert (upload.videoElement sampleUploadClosure < length (document uploading)) as Hv
    by (vm_compute; lia).
  destruct (C6_upload_success uploading 0 sampleUploadClosure
              (JObj [("success", JBool true); ("filename", JStr "a.mp4")]) (JStr "a.mp4")
              "File uploaded successfully!" "a.mp4"
              Hp eq_refl eq_refl eq_refl eq_refl eq_refl Hc Hv)
    as (Hcur & Hsrc & Htrim).
  assert (forall id i, getElementById id samplePage = Some i ->
            getElementById id (document uploading) = Some i) as Hid.
  { intros id i <-. apply getElementById_ids. vm_compute. reflexivity. }
  destruct (Htrim 9 10 11 6 7) as (_ & _ & Hb & _);
    [apply Hid; vm_compute; reflexivity..|].
  split; [exact Hp|]. split; [exact Hcur|]. split; [exact Hsrc | exact Hb].
Defined.

(** ** A successful trim *)

Section Trim.
Context `{Host}.

#[local] Hint Resolve wf_setProp wf_alert wf_store wf_removePending : page.

(** X24: on a 2xx reply to /trim_video with a truthy [success] and a truthy
    [trimmed_filename], whose message and trimmed file name have a string
    conversion, the [currentVideoFilename] of the listener that sent the
    request becomes that name, the preview element it holds points at
    '/get_video/<trimmed_filename>', and the message is the one alert. *)
Lemma trim_success_updates w k c data trimmed_filename message name :
  pending w !! k = Some (TrimChain c) ->
  truthy_opt (field "success" data) = true ->
  field "trimmed_filename" data = Some trimmed_filename ->
  truthy trimmed_filename = true ->
  toString (or_else (field "message" data) (JStr "Video trimmed successfully!"))
    = Some message ->
  toString trimmed_filename = Some name ->
  trim.currentVideoFilename c < length (heap w) ->
  trim.videoElement c < length (document w) ->
  let w' := step w (Settle k (Response true (Json data))) in
  heap w' !! trim.currentVideoFilename c = Some trimmed_filename /\
  propAt src (document w') (trim.videoElement c) = Some ("/get_video/" ++ name) /\
  effects w' = (effects w ++ [Alert message])%list.
Proof.
  intros Hp Hsuc Hfn Htr Hmsg Hname Hcell Hvid. simpl. rewrite Hp. simpl.
  change (length (heap w)) with (length (heap (removePending k w))) in Hcell.
  change (document w) with (document (removePending k w)) in Hvid.
  change (effects w) with (effects (removePending k w)).
  revert Hcell Hvid. generalize (removePending k w) as w0. intros w0 Hcell Hvid.
  unfold trimSettle, trimCallbacks. simpl.
  assert (catching trimCatch (trimThen c data w0) =
          match data with
          | JNull => trimCatch (nullPropertyMessage "message") w0
          | _ => catching trimCatch (trimThen c data w0)
          end) as <-.
  { by destruct data. }
  unfold trimThen. rewrite Hmsg, Hfn, Hsuc, Htr. simpl.
  set (w1 := alert message w0).
  assert (trim.currentVideoFilename c < length (heap w1)) as Hc1 by done.
  rewrite !(load_store _ _ w1 Hc1), Hname. simpl.
  split; [by apply list_lookup_insert_eq|]. split; [|done].
  rewrite !propAt_alter_keep by done.
  by apply propAt_alter_set.
Qed.

(** A click that passes the checks sends the closure's own
    [currentVideoFilename], whatever the other closures hold. *)
Lemma trimClickHandler_sends c w :
  rejection c w = None ->
  effects (trimClickHandler c w) =
    (effects w ++
     [Fetch "/trim_video"
        (JsonBody (JObj [("filename", load w (trim.currentVideoFilename c));
                         ("start_time", JNum (startTime c w));
                         ("end_time", JNum (endTime c w))]))])%list.
Proof.
  unfold rejection, trimClickHandler, startTime, endTime.
  intros Hr. repeat case_match; simplify_eq; done.
Qed.

End Trim.

(** The click handler knows no duration: with a.mp4 uploaded, start 1 and end
    100000, the request goes out. *)
Example click_forwards_any_end :
  effects (trimClickHandler sampleTrimClosure (sampleRange "1" "100000")) =
    (effects (sampleRange "1" "100000") ++
     [Fetch "/trim_video"
        (JsonBody (JObj [("filename", JStr "a.mp4");
                         ("start_time", JNum (num_of_Z 1));
                         ("end_time", JNum (num_of_Z 100000))]))])%list.
Proof. vm_compute. reflexivity. Qed.

(** C2, on the sample page: after a.mp4 and b.mp4 were uploaded and one click
    trimmed both, the last successful trim reply named b_trim.mp4 and the
    preview shows it; the next click on the enabled trim button still sends a
    request whose source is a_trim.mp4, from the listener that the first
    upload registered, besides the request for b_trim.mp4 (and the listener
    registered at page load still alerts that no video was uploaded). *)
Theorem C2_stale_listener_request :
  propAt src (document twoUploadsOneTrim) 7 = Some "/get_video/b_trim.mp4" /\
  propAt disabled (document twoUploadsOneTrim) 11 = Some false /\
  pending twoUploadsOneTrim = [] /\
  effects (step twoUploadsOneTrim (Click 11)) =
    (effects twoUploadsOneTrim ++
     [Alert "Please upload a video first.";
      Fetch "/trim_video" (sampleTrimData "a_trim.mp4");
      Fetch "/trim_video" (sampleTrimData "b_trim.mp4")])%list.
Proof. vm_compute. done. Qed.

(** ** Tab navigation *)

Lemma contains_true cls l : contains cls l = true <-> cls ∈ l.
Proof.
  unfold contains. rewrite existsb_exists. split.
  - intros (x & Hx%list_elem_of_In & ->%String.eqb_eq). done.
  - intros Hin. exists cls. split; [by apply list_elem_of_In | apply String.eqb_refl].
Qed.

Lemma contains_add_same cls l : contains cls (add cls l) = true.
Proof.
  unfold add. destruct (contains cls l) eqn:Hc; [done|].
  apply contains_true, elem_of_app. right. by apply list_elem_of_singleton.
Qed.

Lemma contains_add_other c cls l : c <> cls -> contains c (add cls l) = contains c l.
Proof.
  intros Hne. unfold add. destruct (contains cls l); [done|].
  unfold contains. rewrite existsb_app. simpl.
  destruct (String.eqb_spec c cls); [done|]. by rewrite !orb_false_r.
Qed.

Lemma contains_remove_other c cls l : c <> cls -> contains c (remove cls l) = contains c l.
Proof.
  intros Hne. unfold contains, remove. induction l as [|x l IH]; simpl; [done|].
  destruct (String.eqb_spec cls x) as [<-|Hx]; simpl.
  - destruct (String.eqb_spec c cls); [done|]. by rewrite IH.
  - by rewrite IH.
Qed.

Lemma hasClass_propAt cls (d : Document) i :
  hasClass cls d i = default false (contains cls <$> propAt classList d i).
Proof. unfold hasClass, propAt. by destruct (d !! i). Qed.

Lemma hasClass_lt cls (d : Document) i : hasClass cls d i = true -> i < length d.
Proof.
  unfold hasClass. destruct (d !! i) eqn:Hi; [|done].
  intros _. by eapply lookup_lt_Some.
Qed.

Lemma elem_of_querySelectorAll cls (d : Document) i :
  i ∈ querySelectorAll cls d <-> hasClass cls d i = true.
Proof.
  unfold querySelectorAll. rewrite list_elem_of_In, filter_In, in_seq. split.
  - by intros [_ ?].
  - intros Hc. split; [|done]. apply hasClass_lt in Hc. lia.
Qed.

Lemma querySelectorAll_ext cls (d d' : Document) :
  length d' = length d -> (forall i, hasClass cls d' i = hasClass cls d i) ->
  querySelectorAll cls d' = querySelectorAll cls d.
Proof.
  intros Hlen Hc. unfold querySelectorAll. rewrite Hlen.
  apply filter_ext. done.
Qed.

Lemma hasClass_remove cls c j (d : Document) i :
  hasClass c (classList_remove cls j d) i =
    if decide (c = cls /\ i = j) then false else hasClass c d i.
Proof.
  unfold hasClass, classList_remove. destruct (decide (j = i)) as [->|Hji].
  - rewrite list_lookup_alter_eq. destruct (d !! i) as [e|]; simpl.
    + destruct (decide (c = cls)) as [->|Hc].
      * rewrite decide_True by done. apply contains_remove.
      * rewrite decide_False by tauto. by apply contains_remove_other.
    + by case_decide.
  - rewrite list_lookup_alter_ne by done. rewrite decide_False; [done|].
    intros [_ ->]. done.
Qed.

Lemma hasClass_add cls c j (d : Document) i :
  j < length d ->
  hasClass c (classList_add cls j d) i =
    if decide (c = cls /\ i = j) then true else hasClass c d i.
Proof.
  intros Hj. unfold hasClass, classList_add. destruct (decide (j = i)) as [->|Hji].
  - rewrite list_lookup_alter_eq.
    apply lookup_lt_is_Some in Hj as [e He]. rewrite He. simpl.
    destruct (decide (c = cls)) as [->|Hc].
    + rewrite decide_True by done. apply contains_add_same.
    + rewrite decide_False by tauto. by apply contains_add_other.
  - rewrite list_lookup_alter_ne by done. rewrite decide_False; [done|].
    intros [_ ->]. done.
Qed.

Lemma hasClass_add_ge cls c j (d : Document) i :
  length d <= j -> hasClass c (classList_add cls j d) i = hasClass c d i.
Proof.
  intros Hj. unfold hasClass, classList_add.
  destruct (decide (j = i)) as [->|Hji].
  - rewrite list_lookup_alter_eq. by rewrite lookup_ge_None_2.
  - by rewrite list_lookup_alter_ne.
Qed.

Lemma hasClass_foldl_remove cls c l (d : Document) i :
  hasClass c (foldl (fun d t => classList_remove cls t d) d l) i =
    if decide (c = cls /\ i ∈ l) then false else hasClass c d i.
Proof.
  revert d. induction l as [|t l IH]; intros d; simpl.
  - rewrite decide_False; [done|]. intros [_ Hin]. by apply not_elem_of_nil in Hin.
  - rewrite IH, hasClass_remove.
    destruct (decide (c = cls /\ i ∈ l)) as [[-> Hin]|Hn].
    + rewrite decide_True; [done|]. split; [done|]. apply elem_of_cons. by right.
    + destruct (decide (c = cls /\ i = t)) as [[-> ->]|Hn'].
      * rewrite decide_True; [done|]. split; [done|]. apply elem_of_cons. by left.
      * rewrite decide_False; [done|]. intros [-> [->|Hin]%elem_of_cons]; tauto.
Qed.


Lemma getAttribute_propAt name (d : Document) i :
  getAttribute name d i = propAt attributes d i ≫= assoc name.
Proof. unfold getAttribute, propAt. by destruct (d !! i). Qed.

Lemma propAt_foldl_remove {A} (g : Element -> A) cls l (d : Document) i :
  (forall f e, g (with_classList f e) = g e) ->
  propAt g (foldl (fun d t => classList_remove cls t d) d l) i = propAt g d i.
Proof.
  intros Hg. revert d. induction l as [|t l IH]; intros d; simpl; [done|].
  rewrite IH. unfold classList_remove. by rewrite propAt_alter_keep.
Qed.

Lemma tabTarget_lt d tab j : tabTarget d tab = Some j -> j < length d.
Proof. apply getElementById_lt. Qed.

Lemma length_tabClickHandler navTabs tabContents tab (d : Document) :
  length (tabClickHandler navTabs tabContents tab d) = length d.
Proof.
  rewrite <- !(length_fmap elemId). by rewrite ids_tabClickHandler.
Qed.

(** The classes other than 'active' are left alone. *)
Lemma hasClass_tabClickHandler_other navTabs tabContents tab (d : Document) c i :
  c <> "active" ->
  hasClass c (tabClickHandler navTabs tabContents tab d) i = hasClass c d i.
Proof.
  intros Hc. unfold tabClickHandler, showTarget.
  assert (forall j (d' : Document), hasClass c (classList_add "active" j d') i = hasClass c d' i)
    as Hadd.
  { intros j d'. destruct (decide (j < length d')).
    - rewrite hasClass_add by done. rewrite decide_False; [done|]. tauto.
    - apply hasClass_add_ge. lia. }
  destruct (tabTarget _ tab); rewrite ?Hadd, !hasClass_foldl_remove;
    rewrite !decide_False by tauto; done.
Qed.

Lemma tabTarget_ext (d d' : Document) tab :
  (elemId <$> d') = (elemId <$> d) ->
  propAt attributes d' tab = propAt attributes d tab ->
  tabTarget d' tab = tabTarget d tab.
Proof.
  intros Hids Hattr. unfold tabTarget, getElementByAttr.
  by rewrite (getElementById_ids _ d d'), !getAttribute_propAt, Hattr.
Qed.






(** ** The listeners of the tabs *)

Lemma register_tabs_listeners navTabs tabContents ts w :
  let reg := fun (w : World) (tab : nat) =>
    addEventListener {| target := tab; on := click;
                        handler := TabClick navTabs tabContents tab |} w in
  listeners (foldl reg w ts) =
    (listeners w ++
     ((fun tab => {| target := tab; on := click;
                     handler := TabClick navTabs tabContents tab |}) <$> ts))%list.
Proof.
  intros reg. revert w. induction ts as [|t ts IH]; intros w; simpl.
  - by rewrite app_nil_r.
  - rewrite IH. simpl. by rewrite <- app_assoc.
Qed.

(** ** The asset store and the trim engine *)

Section Pipeline.
Import AssetStore TrimEngine.

Lemma put_derived_Some cfg disk_ok source bytes k name ctype (s s' : Store) a :
  put_derived cfg disk_ok source bytes k name ctype s = (s', inr a) ->
  id a = fresh (dom s) /\ s' = <[id a := (a, bytes)]> s.
Proof.
  unfold put_derived. repeat case_match; try done. by intros [= <- <-].
Qed.

(** [put] goes through when the payload is within the size limit, its type is
    accepted and the disk takes the write. *)
Lemma put_accepts cfg bytes k name ctype (s : Store) :
  (N.of_nat (length bytes) <= max_size cfg)%N ->
  contains ctype (accepted_types cfg) = true ->
  exists s' a, put cfg true bytes k name ctype s = (s', inr a).
Proof.
  intros Hsize Hty. unfold put, put_derived.
  rewrite (proj2 (N.ltb_ge _ _) Hsize), Hty. simpl. by eexists _, _.
Qed.

(** C7: whatever the payload, the bytes read back under the id that [put]
    returned are the payload. The id is a new one, and the assets already
    stored are as before. *)
Theorem C7_put_get_roundtrip cfg disk_ok bytes k name ctype (s s' : Store) a :
  put cfg disk_ok bytes k name ctype s = (s', inr a) ->
  get (id a) s' = inr bytes /\
  s !! id a = None /\
  (forall i, i <> id a -> s' !! i = s !! i).
Proof.
  intros [Hid ->]%put_derived_Some. unfold get. split; [|split].
  - by rewrite lookup_insert_eq.
  - rewrite Hid. apply not_elem_of_dom, is_fresh.
  - intros i Hi. by rewrite lookup_insert_ne.
Qed.

Lemma check_range_beyond start_seconds end_seconds duration :
  js_lt duration end_seconds = true ->
  exists which,
    check_range start_seconds end_seconds duration = Some which /\
    (isNaN start_seconds = false -> js_lt start_seconds num_zero = false ->
     js_ge start_seconds end_seconds = false -> which = EndBeyondDuration).
Proof.
  intros Hlt. unfold check_range.
  assert (isNaN end_seconds = false) as -> by (by destruct duration, end_seconds).
  rewrite Hlt, orb_false_r.
  destruct (isNaN start_seconds); [by eexists|].
  destruct (js_lt start_seconds num_zero); [by eexists|].
  destruct (js_ge start_seconds end_seconds); by eexists.
Qed.

(** C4: a trim whose end time exceeds the probed duration of its source
    video fails with a ValidationError and leaves the store as it was, so
    that no derived asset exists; when the other bounds hold, the error names
    the end bound. *)
Theorem C4_end_beyond_duration `{Toolkit} cfg policy disk_ok source_id
    start_seconds end_seconds (s : Store) source bytes duration :
  s !! source_id = Some (source, bytes) -> kind source = video ->
  probe bytes = Some duration ->
  js_lt duration end_seconds = true ->
  exists which,
    trim cfg policy disk_ok source_id start_seconds end_seconds s
      = (s, inl (ValidationError which)) /\
    (isNaN start_seconds = false -> js_lt start_seconds num_zero = false ->
     js_ge start_seconds end_seconds = false -> which = EndBeyondDuration).
Proof.
  intros Hsrc Hkind Hprobe Hlt. unfold trim. rewrite Hsrc, Hkind, Hprobe.
  destruct (check_range_beyond start_seconds end_seconds duration Hlt)
    as (which & -> & Hwhich).
  by exists which.
Qed.

End Pipeline.

Section PipelineSamples.
Import AssetStore TrimEngine.
#[local] Existing Instance sampleToolkit.

Lemma C7_put_get_roundtrip_witness :
  exists s' a,
    put sampleConfig true tenSeconds video "clip.mp4" "video/mp4" ∅ = (s', inr a) /\
    get (id a) s' = inr tenSeconds.
Proof.
  destruct (put_accepts sampleConfig tenSeconds video "clip.mp4" "video/mp4" ∅)
    as (s' & a & Hput); [vm_compute; discriminate | vm_compute; reflexivity |].
  exists s', a. split; [exact Hput|].
  apply (C7_put_get_roundtrip sampleConfig true tenSeconds video "clip.mp4" "video/mp4"
           ∅ s' a Hput).
Defined.

(** Seconds 2 to 12 of the ten-second video. *)
Lemma C4_end_beyond_duration_witness :
  js_lt (num_of_Z 10) (num_of_Z 12) = true /\
  trim sampleConfig exact true 1%positive (num_of_Z 2) (num_of_Z 12) sampleStore
    = (sampleStore, inl (ValidationError EndBeyondDuration)).
Proof.
  split; [vm_compute; reflexivity|].
  destruct (C4_end_beyond_duration sampleConfig exact true 1%positive
              (num_of_Z 2) (num_of_Z 12) sampleStore
              {| id := 1%positive; kind := video; original_name := "clip.mp4";
                 size_bytes := 10; content_type := "video/mp4"; derived_from := None |}
              tenSeconds (num_of_Z 10))
    as (which & Htrim & Hwhich);
    [vm_compute; reflexivity | reflexivity | vm_compute; reflexivity
    | vm_compute; reflexivity |].
  rewrite Htrim, Hwhich; [reflexivity | vm_compute; reflexivity..].
Defined.

End PipelineSamples.


(** * Further properties of the scripts *)

(** ** The click handlers of the upload form *)

Section Clicks.
Context `{Host}.

(** X1: a click on the upload button while no file is selected shows "Please
    select a video file to upload." and does nothing else: no request, no
    change to the page. *)
Theorem X1_upload_click_without_file c w :
  files (elementAt w (upload.videoFileInput c)) = [] ->
  onlyAlerts "Please select a video file to upload." w (uploadClickHandler c w).
Proof.
  intros Hfiles. unfold uploadClickHandler. rewrite Hfiles. simpl.
  apply alert_onlyAlerts.
Qed.

(** The three writes that put a button in its loading state. *)
Lemma loading_button b label (d : Document) :
  b < length d ->
  exists btn,
    alter (with_textContent label)
      b (alter (with_disabled true) b (alter (with_classList (add "loading")) b d)) !! b
      = Some btn /\
    contains "loading" (classList btn) = true /\ disabled btn = true /\
    textContent btn = label.
Proof.
  intros [e He]%lookup_lt_is_Some. rewrite !list_lookup_alter_eq, He. simpl.
  eexists. split; [done|]. simpl. by rewrite contains_add_same.
Qed.

(** X2: a click on the upload button with files selected sends one POST to
    /upload_video whose form data holds the first file only, under the key
    'video'; the button gets the 'loading' class, is disabled and reads
    'Uploading...'; nothing else on the page changes. *)
Theorem X2_upload_click_sends_first_file c w file others :
  files (elementAt w (upload.videoFileInput c)) = file :: others ->
  upload.uploadButton c < length (document w) ->
  effects (uploadClickHandler c w)
    = (effects w ++ [Fetch "/upload_video" (FormData [("video", file)])])%list /\
  pending (uploadClickHandler c w) = (pending w ++ [UploadChain c])%list /\
  heap (uploadClickHandler c w) = heap w /\
  listeners (uploadClickHandler c w) = listeners w /\
  (exists btn,
     document (uploadClickHandler c w) !! upload.uploadButton c = Some btn /\
     contains "loading" (classList btn) = true /\ disabled btn = true /\
     textContent btn = "Uploading...") /\
  (forall i, i <> upload.uploadButton c ->
     document (uploadClickHandler c w) !! i = document w !! i).
Proof.
  intros Hfiles Hb. unfold uploadClickHandler. rewrite Hfiles. simpl.
  repeat split.
  - by apply loading_button.
  - intros i Hi. by rewrite !list_lookup_alter_ne.
Qed.

(** X4: a click on the trim button sends a request to /trim_video exactly
    when a video is set and both parsed times are numbers, are not negative
    (zero is accepted) and the start is below the end. *)
Theorem X4_trim_click_sends_iff c w :
  (exists body,
     effects (trimClickHandler c w) = (effects w ++ [Fetch "/trim_video" body])%list) <->
  truthy (load w (trim.currentVideoFilename c)) = true /\
  isNaN (startTime c w) = false /\ isNaN (endTime c w) = false /\
  js_lt (startTime c w) num_zero = false /\ js_lt (endTime c w) num_zero = false /\
  js_ge (startTime c w) (endTime c w) = false.
Proof.
  destruct (rejection c w) as [msg|] eqn:Hrej.
  - rewrite (trimClickHandler_rejection c w msg Hrej). split.
    + intros [body Hbody]. simpl in Hbody. by apply app_inv_head in Hbody.
    + intros (Hcur & Hs & He & Hs0 & He0 & Hge). revert Hrej. unfold rejection.
      by rewrite Hcur, Hs, He, Hs0, He0, Hge.
  - split.
    + intros _. revert Hrej. unfold rejection.
      destruct (truthy _), (isNaN (startTime c w)), (isNaN (endTime c w)),
        (js_lt (startTime c w) num_zero), (js_lt (endTime c w) num_zero),
        (js_ge (startTime c w) (endTime c w)); simpl; done.
    + intros _. eexists. by apply trimClickHandler_sends.
Qed.

(** X5: a trim click that passes the checks sends one POST to /trim_video
    with the closure's filename and the two parsed times, gives the button
    the 'loading' class, disables it and labels it 'Trimming...'; no
    variable, no listener and no other element changes. *)
Theorem X5_trim_click_accepted c w :
  rejection c w = None ->
  trim.trimVideoButton c < length (document w) ->
  effects (trimClickHandler c w) =
    (effects w ++
     [Fetch "/trim_video"
        (JsonBody (JObj [("filename", load w (trim.currentVideoFilename c));
                         ("start_time", JNum (startTime c w));
                         ("end_time", JNum (endTime c w))]))])%list /\
  pending (trimClickHandler c w) = (pending w ++ [TrimChain c])%list /\
  heap (trimClickHandler c w) = heap w /\
  listeners (trimClickHandler c w) = listeners w /\
  (exists btn,
     document (trimClickHandler c w) !! trim.trimVideoButton c = Some btn /\
     contains "loading" (classList btn) = true /\ disabled btn = true /\
     textContent btn = "Trimming...") /\
  (forall i, i <> trim.trimVideoButton c ->
     document (trimClickHandler c w) !! i = document w !! i).
Proof.
  intros Hrej Hb. split; [by apply trimClickHandler_sends|].
  revert Hrej. unfold rejection, trimClickHandler, startTime, endTime.
  repeat case_match; try done. intros _. simpl. repeat split.
  - by apply loading_button.
  - intros i Hi. by rewrite !list_lookup_alter_ne.
Qed.

End Clicks.

(** ** The change listener of the file input *)

Section FileChange.
Context `{Host}.

Lemma hasClass_alter_keep cls f j (d : Document) i :
  (forall e, classList (f e) = classList e) ->
  hasClass cls (alter f j d) i = hasClass cls d i.
Proof. intros Hf. by rewrite !hasClass_propAt, propAt_alter_keep. Qed.

(** X3: after the file input changes, the upload button is disabled exactly
    when no file is selected, the preview source is cleared, the preview area
    has the 'active' class exactly when a file is selected, and the metadata
    element shows the markup of the first file, or nothing. The handler sends
    nothing and alerts nothing. *)
Theorem X3_file_change c w :
  upload.uploadButton c < length (document w) ->
  upload.videoElement c < length (document w) ->
  upload.videoPreviewArea c < length (document w) ->
  upload.videoMetadata c < length (document w) ->
  let chosen := head (files (elementAt w (upload.videoFileInput c))) in
  let d' := document (fileChangeHandler c w) in
  propAt disabled d' (upload.uploadButton c)
    = Some (if chosen is Some _ then false else true) /\
  propAt src d' (upload.videoElement c) = Some "" /\
  hasClass "active" d' (upload.videoPreviewArea c)
    = (if chosen is Some _ then true else false) /\
  propAt innerHTML d' (upload.videoMetadata c)
    = Some (if chosen is Some file then metadataMarkup file else "") /\
  heap (fileChangeHandler c w) = heap w /\
  listeners (fileChangeHandler c w) = listeners w /\
  pending (fileChangeHandler c w) = pending w /\
  effects (fileChangeHandler c w) = effects w.
Proof.
  intros Hb Hv Ha Hm. unfold fileChangeHandler.
  destruct (head (files (elementAt w (upload.videoFileInput c)))) as [file|]; simpl.
  - split; [apply propAt_alter_set; [done | by rewrite !length_alter]|].
    split; [rewrite propAt_alter_keep by done;
            apply propAt_alter_set; [done | by rewrite !length_alter]|].
    split; [|split; [|done]].
    + rewrite !hasClass_alter_keep by done.
      change (alter (with_classList (add "active")) ?j ?d)
        with (classList_add "active" j d).
      rewrite hasClass_add by by rewrite length_alter.
      by rewrite decide_True.
    + rewrite !propAt_alter_keep by done. by apply propAt_alter_set.
  - split; [apply propAt_alter_set; [done | by rewrite !length_alter]|].
    split; [rewrite !propAt_alter_keep by done;
            apply propAt_alter_set; [done | by rewrite !length_alter]|].
    split; [|split; [|done]].
    + rewrite !hasClass_alter_keep by done.
      change (alter (with_classList (remove "active")) ?j ?d)
        with (classList_remove "active" j d).
      rewrite hasClass_remove. by rewrite decide_True.
    + rewrite propAt_alter_keep by done.
      apply propAt_alter_set; [done | by rewrite !length_alter].
Qed.

End FileChange.

(** ** What a settled request does *)

Section Replies.
Context `{Host}.

Lemma callInitializeVideoTrimming_quiet v w :
  effects (stateOf (callInitializeVideoTrimming v w)) = effects w /\
  pending (stateOf (callInitializeVideoTrimming v w)) = pending w /\
  heap (stateOf (callInitializeVideoTrimming v w)) = (heap w ++ [default JNull v])%list.
Proof. unfold callInitializeVideoTrimming, alloc. by repeat case_match. Qed.

Lemma initializeVideoTrimming_quiet v w :
  effects (initializeVideoTrimming v w) = effects w /\
  pending (initializeVideoTrimming v w) = pending w /\
  heap (initializeVideoTrimming v w) = (heap w ++ [default JNull v])%list.
Proof. apply callInitializeVideoTrimming_quiet. Qed.

(** A call with a name that has a string conversion returns. *)
Lemma callInitializeVideoTrimming_returns filename name w :
  toString filename = Some name ->
  callInitializeVideoTrimming (Some filename) w
    = Normal (initializeVideoTrimming (Some filename) w).
Proof.
  intros Hname. unfold initializeVideoTrimming, callInitializeVideoTrimming.
  pose proof (load_alloc filename w) as Hload. unfold alloc in *. simpl in *.
  repeat case_match; try done.
  rewrite !load_setProp, Hload, Hname in *. done.
Qed.

(** The variable read back after the assignment of the second [then]
    callback. *)
Lemma load_after_store a v w :
  load (store a v w) a = v \/ load (store a v w) a = JNull.
Proof.
  unfold load, store. simpl. destruct (decide (a < length (heap w))) as [Hlt|Hge].
  - left. by rewrite list_lookup_insert_eq.
  - right. rewrite lookup_ge_None_2; [done|]. rewrite length_insert. lia.
Qed.

(** The effects of the second [then] callback and of the [catch] callback
    after it: the message, when it has a string conversion, and then nothing
    or, when the file name has none, the failure. *)
Lemma trimThen_effects c data w :
  pending (catching trimCatch (trimThen c data w)) = pending w /\
  match toString (or_else (field "message" data) (JStr "Video trimmed successfully!")) with
  | Some message =>
      effects (catching trimCatch (trimThen c data w)) = (effects w ++ [Alert message])%list \/
      (effects (catching trimCatch (trimThen c data w))
         = (effects w ++ [Alert message;
                          Alert ("Trimming failed: " ++ errorText conversionMessage)])%list /\
       announcedTwice (TrimChain c) (Response true (Json data)) = true)
  | None =>
      effects (catching trimCatch (trimThen c data w))
        = (effects w ++ [Alert ("Trimming failed: " ++ errorText conversionMessage)])%list
  end.
Proof.
  unfold trimThen, announcedTwice, converts, succeeds. simpl.
  destruct (toString (or_else _ _)) as [message|]; [|done]. simpl.
  destruct (field "trimmed_filename" data) as [name|]; simpl; [|split; [done | by left]].
  destruct (truthy_opt (field "success" data) && truthy name) eqn:Hg; simpl;
    [|split; [done | by left]].
  destruct (load_after_store (trim.currentVideoFilename c) name (alert message w))
    as [-> | ->]; [|split; [done | by left]].
  destruct (toString name) as [n|]; simpl; [split; [done | by left]|].
  split; [done|]. right. by rewrite <- app_assoc.
Qed.

Lemma uploadThen_effects c data w :
  pending (catching uploadCatch (uploadThen c data w)) = pending w /\
  match toString (or_else (field "message" data) (JStr "File uploaded successfully!")) with
  | Some message =>
      effects (catching uploadCatch (uploadThen c data w)) = (effects w ++ [Alert message])%list \/
      (effects (catching uploadCatch (uploadThen c data w))
         = (effects w ++ [Alert message;
                          Alert ("Upload failed: " ++ errorText conversionMessage)])%list /\
       announcedTwice (UploadChain c) (Response true (Json data)) = true)
  | None =>
      effects (catching uploadCatch (uploadThen c data w))
        = (effects w ++ [Alert ("Upload failed: " ++ errorText conversionMessage)])%list
  end.
Proof.
  unfold uploadThen, announcedTwice, converts, succeeds. simpl.
  destruct (toString (or_else _ _)) as [message|]; [|done]. simpl.
  destruct (field "filename" data) as [name|]; simpl; [|split; [done | by left]].
  destruct (truthy_opt (field "success" data) && truthy name) eqn:Hg; simpl;
    [|split; [done | by left]].
  destruct (toString (load (store _ _ _) _)) as [n|] eqn:Hn; simpl.
  - rewrite !load_setProp.
    rewrite (callInitializeVideoTrimming_returns _ n) by done. simpl.
    match goal with
    | |- context [initializeVideoTrimming ?v ?w0] =>
        destruct (initializeVideoTrimming_quiet v w0) as (-> & -> & _)
    end.
    split; [done | by left].
  - destruct (load_after_store (upload.currentVideoFilename c) name (alert message w))
      as [Hl | Hl]; rewrite Hl in Hn; [|done].
    rewrite Hn. split; [done|]. right. by rewrite <- app_assoc.
Qed.

(** What a settled chain shows: one alert, or two, and no request. *)
Lemma settle_alerts p o w :
  exists msgs,
    effects (settle p o w) = (effects w ++ (Alert <$> msgs))%list /\
    pending (settle p o w) = pending w /\
    (length msgs = 1 \/ (length msgs = 2 /\ announcedTwice p o = true)).
Proof.
  destruct p as [c|c]; simpl; unfold trimSettle, uploadSettle, trimFinally,
    uploadFinally, trimCallbacks, uploadCallbacks; simpl.
  - destruct (readResponse "Trimming failed" o) as [m|data] eqn:Hread;
      [eexists [_]; by (split; [|split; [|left]])|].
    assert (o = Response true (Json data)) as ->.
    { destruct o as [?|[|] [?|[]]]; simpl in Hread; by simplify_eq. }
    destruct (trimThen_effects c data w) as [Hp He].
    destruct data; try (eexists [_]; by (split; [|split; [|left]]));
      rewrite Hp; destruct (toString (or_else _ _)) as [message|];
      try (rewrite He; eexists [_]; by (split; [|split; [|left]]));
      (destruct He as [->|[-> Htwice]];
         [eexists [_]; by (split; [|split; [|left]])
         |eexists [_; _]; by (split; [|split; [|right]])]).
  - destruct (readResponse "Upload failed" o) as [m|data] eqn:Hread;
      [eexists [_]; by (split; [|split; [|left]])|].
    assert (o = Response true (Json data)) as ->.
    { destruct o as [?|[|] [?|[]]]; simpl in Hread; by simplify_eq. }
    destruct (uploadThen_effects c data w) as [Hp He].
    destruct data; try (eexists [_]; by (split; [|split; [|left]]));
      rewrite Hp; destruct (toString (or_else _ _)) as [message|];
      try (rewrite He; eexists [_]; by (split; [|split; [|left]]));
      (destruct He as [->|[-> Htwice]];
         [eexists [_]; by (split; [|split; [|left]])
         |eexists [_; _]; by (split; [|split; [|right]])]).
Qed.

(** X6: a settled request shows one alert, whatever its outcome, or two
    when the reply passes the guard of the second [then] callback with a
    file name that has no string conversion: the message, then the failure.
    It starts no request. *)
Theorem X6_one_or_two_alerts p o w :
  exists msgs,
    effects (settle p o w) = (effects w ++ (Alert <$> msgs))%list /\
    pending (settle p o w) = pending w /\
    (length msgs = 1 \/ (length msgs = 2 /\ announcedTwice p o = true)).
Proof. apply settle_alerts. Qed.

(** X7: on a 2xx reply with a body other than null, the first alert is the
    body's message or, when it has none, the success text ('Video trimmed
    successfully!' or 'File uploaded successfully!'), also when [success] is
    false or missing; when the message has no string conversion, the one
    alert is the failure with the text of the TypeError. *)
Theorem X7_ok_reply_announced p data w :
  data <> JNull ->
  match toString (or_else (field "message" data) (JStr (successText p))) with
  | Some message =>
      exists rest,
        effects (settle p (Response true (Json data)) w)
          = (effects w ++ Alert message :: rest)%list
  | None =>
      effects (settle p (Response true (Json data)) w)
        = (effects w ++ [Alert (failureText p ++ ": " ++ errorText conversionMessage)])%list
  end.
Proof.
  intros Hdata.
  destruct p as [c|c]; simpl; unfold trimSettle, uploadSettle, trimFinally,
    uploadFinally; simpl.
  - assert (trimCallbacks c (Response true (Json data)) w
            = catching trimCatch (trimThen c data w)) as -> by by destruct data.
    destruct (trimThen_effects c data w) as [_ He].
    destruct (toString (or_else _ _)) as [message|]; [|done].
    destruct He as [->|[-> _]]; by eexists.
  - assert (uploadCallbacks c (Response true (Json data)) w
            = catching uploadCatch (uploadThen c data w)) as -> by by destruct data.
    destruct (uploadThen_effects c data w) as [_ He].
    destruct (toString (or_else _ _)) as [message|]; [|done].
    destruct He as [->|[-> _]]; by eexists.
Qed.

(** X8: a chain that is rejected before its second [then] callback shows
    one alert, '<operation> failed: ' followed by the message of the error,
    or by 'An unknown error occurred.' when that message is empty. The error
    is the one [fetch] or [response.json()] rejects with or, on a non-2xx
    reply with a body other than null, an error whose message is the body's
    message or '<operation> failed', or the TypeError of a message that has
    no string conversion. *)
Theorem X8_rejection_announced p w :
  (forall m ok,
     effects (settle p (NetworkError m) w)
       = (effects w ++ [Alert (failureText p ++ ": " ++ errorText m)])%list /\
     effects (settle p (Response ok (BadJson m)) w)
       = (effects w ++ [Alert (failureText p ++ ": " ++ errorText m)])%list) /\
  (forall err, err <> JNull ->
     effects (settle p (Response false (Json err)) w)
       = (effects w ++
          [Alert (failureText p ++ ": " ++
                  errorText (default conversionMessage
                               (toString (or_else (field "message" err)
                                                  (JStr (failureText p))))))])%list).
Proof.
  split.
  - intros m ok. by destruct p, ok.
  - intros err Herr. by destruct p, err.
Qed.

Lemma settle_failure_frame p o w :
  succeeds (filenameKey p) o = false ->
  heap (settle p o w) = heap w /\
  listeners (settle p o w) = listeners w /\
  (forall i, i <> triggeringButton p -> document (settle p o w) !! i = document w !! i).
Proof.
  intros Hfail. split; [by apply heap_settle_failure|].
  assert (forall (b : nat) (d : Document) f1 f2 f3 i, i <> b ->
            alter f3 b (alter f2 b (alter f1 b d)) !! i = d !! i) as Hframe.
  { intros b d f1 f2 f3 i Hi. by rewrite !list_lookup_alter_ne. }
  destruct p as [c|c]; simpl in *;
    unfold trimSettle, uploadSettle, trimFinally, uploadFinally,
      trimCallbacks, uploadCallbacks; simpl.
  - destruct (readResponse "Trimming failed" o) as [m|data] eqn:Hread;
      [split; [done | intros i Hi; by apply Hframe]|].
    assert (o = Response true (Json data)) as ->.
    { destruct o as [?|[|] [?|[]]]; simpl in Hread; by simplify_eq. }
    simpl in Hfail.
    assert (exists m, catching trimCatch (trimThen c data w) = alert m w) as [m Hthen].
    { unfold trimThen. destruct (toString _); [|by eexists].
      destruct (field "trimmed_filename" data); simpl in *; [|by eexists].
      rewrite Hfail. by eexists. }
    destruct data; rewrite ?Hthen; (split; [done | intros i Hi; by apply Hframe]).
  - destruct (readResponse "Upload failed" o) as [m|data] eqn:Hread;
      [split; [done | intros i Hi; by apply Hframe]|].
    assert (o = Response true (Json data)) as ->.
    { destruct o as [?|[|] [?|[]]]; simpl in Hread; by simplify_eq. }
    simpl in Hfail.
    assert (exists m, catching uploadCatch (uploadThen c data w) = alert m w) as [m Hthen].
    { unfold uploadThen. destruct (toString _); [|by eexists].
      destruct (field "filename" data); simpl in *; [|by eexists].
      rewrite Hfail. by eexists. }
    destruct data; rewrite ?Hthen; (split; [done | intros i Hi; by apply Hframe]).
Qed.

(** X9: unless the reply is successful, settling a request changes no
    variable, no listener and no element other than the button that started
    the request. *)
Theorem X9_failure_touches_only_the_button p o w :
  succeeds (filenameKey p) o = false ->
  heap (settle p o w) = heap w /\
  listeners (settle p o w) = listeners w /\
  (forall i, i <> triggeringButton p -> document (settle p o w) !! i = document w !! i).
Proof. by apply settle_failure_frame. Qed.

(** X10: settling a request writes no [currentVideoFilename] but the one of
    the closure that sent it: the variables of all other closures keep their
    value, whatever the outcome. *)
Theorem X10_other_variables_kept p o w a :
  a <> cellOf p -> a < length (heap w) ->
  heap (settle p o w) !! a = heap w !! a.
Proof.
  intros Ha Hlt.
  destruct (succeeds (filenameKey p) o) eqn:Hs; [|by rewrite heap_settle_failure].
  destruct o as [?|[|] [?|data]]; try done. simpl in Hs.
  apply andb_prop in Hs as [Hsuc Hname].
  destruct p as [c|c]; simpl in *;
    unfold trimSettle, uploadSettle, trimFinally, uploadFinally,
      trimCallbacks, uploadCallbacks; simpl.
  - assert (heap (catching trimCatch (trimThen c data w)) !! a = heap w !! a) as Hthen.
    { unfold trimThen. destruct (toString _); [|done].
      destruct (field "trimmed_filename" data) as [v|]; [|done].
      simpl in *. rewrite Hsuc, Hname. simpl.
      destruct (toString _); simpl; by rewrite list_lookup_insert_ne. }
    by destruct data.
  - assert (heap (catching uploadCatch (uploadThen c data w)) !! a = heap w !! a) as Hthen.
    { unfold uploadThen. destruct (toString _); [|done].
      destruct (field "filename" data) as [v|]; [|done].
      simpl in *. rewrite Hsuc, Hname. simpl.
      destruct (toString _); simpl; [|by rewrite list_lookup_insert_ne].
      match goal with
      | |- context [callInitializeVideoTrimming ?v ?w0] =>
          pose proof (callInitializeVideoTrimming_quiet v w0) as (_ & _ & Hq);
          destruct (callInitializeVideoTrimming v w0); simpl in *; rewrite Hq
      end; simpl;
        (rewrite lookup_app_l by by rewrite length_insert);
        by rewrite list_lookup_insert_ne. }
    by destruct data.
Qed.

End Replies.

(** A reply whose file name has no string conversion is announced twice,
    as a success and as a failure. *)
Example unprintable_name_two_alerts :
  effects (settle (UploadChain sampleUploadClosure)
             (Response true (Json unprintableName)) uploading) =
    (effects uploading ++
     [Alert "File uploaded successfully!";
      Alert "Upload failed: Cannot convert object to primitive value"])%list.
Proof. vm_compute. reflexivity. Qed.

(** ** Listeners and requests over time *)

Section Growth.
Context `{Host}.

Lemma listeners_runHandler h w : listeners (runHandler h w) = listeners w.
Proof.
  destruct h as [navTabs tabContents tab|c|c|c]; simpl; [done| | |].
  - unfold trimClickHandler. by repeat case_match.
  - unfold uploadClickHandler. by case_match.
  - unfold fileChangeHandler. by case_match.
Qed.

Lemma listeners_dispatch ty i w : listeners (dispatch ty i w) = listeners w.
Proof.
  unfold dispatch. generalize (listeners w) at 1 as ls. intros ls. revert w.
  induction ls as [|l ls IH]; intros w; simpl; [done|].
  rewrite IH. case_match; [apply listeners_runHandler | done].
Qed.

Lemma listeners_initializeVideoTrimming v w :
  exists added,
    listeners (initializeVideoTrimming v w) = (listeners w ++ added)%list /\
    length added <= 1.
Proof.
  unfold initializeVideoTrimming, callInitializeVideoTrimming, alloc.
  repeat case_match; simpl;
    first [ by (eexists [_]; split; [reflexivity | simpl; lia])
          | by (exists []; split; [by rewrite app_nil_r | simpl; lia]) ].
Qed.

Lemma listeners_trimSettle c o w : listeners (trimSettle c o w) = listeners w.
Proof.
  unfold trimSettle, trimFinally, trimCallbacks, trimCatch. simpl.
  destruct (readResponse "Trimming failed" o) as [m|data]; [done|].
  assert (listeners (catching (fun m w => alert ("Trimming failed: " ++ errorText m) w)
                       (trimThen c data w)) = listeners w) as Hthen.
  { unfold trimThen. by repeat case_match. }
  by destruct data.
Qed.

Lemma listeners_uploadCallbacks c o w :
  exists added,
    listeners (uploadCallbacks c o w) = (listeners w ++ added)%list /\
    length added <= 1.
Proof.
  assert (exists added : list Listener,
            listeners w = (listeners w ++ added)%list /\ length added <= 1) as Hsame.
  { exists []. split; [by rewrite app_nil_r | simpl; lia]. }
  unfold uploadCallbacks, uploadCatch.
  destruct (readResponse "Upload failed" o) as [m|data]; [done|].
  assert (exists added,
            listeners (catching (fun m w => alert ("Upload failed: " ++ errorText m) w)
                         (uploadThen c data w))
              = (listeners w ++ added)%list /\ length added <= 1) as Hthen.
  { unfold uploadThen. repeat case_match; try done.
    match goal with
    | |- context [callInitializeVideoTrimming ?v ?w0] =>
        destruct (listeners_initializeVideoTrimming v w0) as (added & Hl & Hlen);
        unfold initializeVideoTrimming in Hl;
        destruct (callInitializeVideoTrimming v w0); simpl in *; by exists added
    end. }
  by destruct data.
Qed.

Lemma step_listeners w ev :
  exists added,
    listeners (step w ev) = (listeners w ++ added)%list /\
    if successfulUpload w ev then length added <= 1 else added = [].
Proof.
  assert (forall w' : World, listeners w' = listeners w ->
            listeners w' = (listeners w ++ [])%list /\ @nil Listener = []) as Hsame.
  { intros w' ->. by rewrite app_nil_r. }
  destruct ev as [i|i fs|i text|k o]; simpl.
  - exists []. apply Hsame. case_match; [done | apply listeners_dispatch].
  - exists []. apply Hsame. case_match; [done | by rewrite listeners_dispatch].
  - exists []. apply Hsame. by case_match.
  - destruct (pending w !! k) as [[c|c]|] eqn:Hk;
      [exists []; apply Hsame; exact (listeners_trimSettle c o (removePending k w))
      | | exists []; by apply Hsame].
    destruct (succeeds "filename" o) eqn:Hs.
    + simpl. unfold uploadSettle, uploadFinally. simpl.
      destruct (listeners_uploadCallbacks c o (removePending k w)) as (added & -> & Hlen).
      by exists added.
    + exists []. apply Hsame.
      by destruct (settle_failure_frame (UploadChain c) o (removePending k w) Hs)
        as (_ & -> & _).
Qed.

(** X12: listeners are only ever appended, never removed or replaced, and
    only the successful reply to an upload appends one (at most one, the
    click listener [initializeVideoTrimming] gives the trim button): every
    other event leaves the listeners as they are. *)
Theorem X12_listeners_only_grow w ev :
  exists added,
    listeners (step w ev) = (listeners w ++ added)%list /\
    if successfulUpload w ev then length added <= 1 else added = [].
Proof. apply step_listeners. Qed.

(** A listener, once registered, is registered for good. *)
Lemma listener_stays d w l evs :
  Reachable d w -> l ∈ listeners w -> l ∈ listeners (run w evs).
Proof.
  intros _. revert w. induction evs as [|ev evs IH]; intros w Hin; simpl; [done|].
  apply IH. destruct (step_listeners w ev) as (added & -> & _).
  apply elem_of_app. by left.
Qed.





Lemma effects_initializeFileUpload w :
  effects (initializeFileUpload w) = effects w /\
  pending (initializeFileUpload w) = pending w.
Proof. unfold initializeFileUpload, alloc. by repeat case_match. Qed.

Lemma effects_initializeTabNavigation w :
  effects (initializeTabNavigation w) = effects w.
Proof.
  unfold initializeTabNavigation.
  match goal with |- context [foldl ?f w ?ts] => set (reg := f) end.
  assert (forall ts w0, effects (foldl reg w0 ts) = effects w0) as Hreg.
  { induction ts as [|t ts IH]; intros w0; simpl; [done | by rewrite IH]. }
  specialize (Hreg (querySelectorAll "nav-tab" (document w)) w). revert Hreg.
  generalize (foldl reg w (querySelectorAll "nav-tab" (document w))) as w1.
  intros w1 Hw1. by repeat case_match.
Qed.

Lemma pageLoad_quiet d :
  effects (pageLoad d) = [] /\ pending (pageLoad d) = [] /\
  heap (pageLoad d) = [JNull; JNull].
Proof.
  split; [|split]; [| |apply heap_pageLoad]; unfold pageLoad.
  - destruct (initializeVideoTrimming_quiet None
       (initializeFileUpload (initializeTabNavigation (emptyWorld d)))) as (-> & _).
    destruct (effects_initializeFileUpload (initializeTabNavigation (emptyWorld d)))
      as (-> & _).
    apply effects_initializeTabNavigation.
  - destruct (initializeVideoTrimming_quiet None
       (initializeFileUpload (initializeTabNavigation (emptyWorld d)))) as (_ & -> & _).
    destruct (effects_initializeFileUpload (initializeTabNavigation (emptyWorld d)))
      as (_ & ->).
    by destruct (initializeTabNavigation_frame d (emptyWorld d)) as (_ & _ & -> & _).
Qed.

(** X14: loading the page shows no alert and sends no request; it creates
    the two [currentVideoFilename] variables, both null. *)
Theorem X14_page_load_is_quiet d :
  effects (pageLoad d) = [] /\ pending (pageLoad d) = [] /\
  heap (pageLoad d) = [JNull; JNull].
Proof. apply pageLoad_quiet. Qed.


End Growth.

(** ** The page as it loads *)

Section Load.
Context `{Host}.

Lemma disabled_initializeVideoTrimming_None w i :
  propAt disabled (document w) i = Some true ->
  propAt disabled (document (initializeVideoTrimming None w)) i = Some true.
Proof.
  intros Hi. unfold initializeVideoTrimming, callInitializeVideoTrimming.
  pose proof (load_alloc JNull w) as Hload. unfold alloc in *. simpl in *.
  rewrite Hload. simpl.
  repeat case_match; try done. simpl.
  by repeat (apply propAt_alter_const; [done|]).
Qed.

Lemma wf_before_trimming d :
  wellFormed d (initializeFileUpload (initializeTabNavigation (emptyWorld d))).
Proof.
  destruct (initializeTabNavigation_frame d (emptyWorld d)) as (Hd & Hh & Hp & Hl).
  apply wf_initializeFileUpload; [done..|]. by apply Hl.
Qed.

(** X11: when the page has the five elements of the upload form, it loads
    with the upload button disabled. *)
Theorem X11_upload_button_disabled_at_load d i b a v m :
  getElementById "video-file-input" d = Some i ->
  getElementById "upload-video-button" d = Some b ->
  getElementById "video-preview-area" d = Some a ->
  getElementById "video-preview" d = Some v ->
  getElementById "video-metadata" d = Some m ->
  propAt disabled (document (pageLoad d)) b = Some true.
Proof.
  intros Hi Hb Ha Hv Hm. unfold pageLoad.
  apply disabled_initializeVideoTrimming_None.
  destruct (initializeTabNavigation_frame d (emptyWorld d)) as (Hd & _).
  unfold initializeFileUpload.
  rewrite !(getElementById_ids _ d (document (initializeTabNavigation (emptyWorld d))))
    by done.
  rewrite Hi, Hb, Ha, Hv, Hm. unfold alloc. simpl.
  apply propAt_alter_set; [done|].
  apply getElementById_lt in Hb.
  apply (f_equal length) in Hd. rewrite !length_fmap in Hd. simpl in Hd. by rewrite Hd.
Qed.

(** X15: when the page has the five elements of the trim form, it loads
    with the two time inputs and the trim button disabled. *)
Theorem X15_trim_controls_disabled_at_load d s e b a v :
  getElementById "start-second" d = Some s ->
  getElementById "end-second" d = Some e ->
  getElementById "trim-video-button" d = Some b ->
  getElementById "video-preview-area" d = Some a ->
  getElementById "video-preview" d = Some v ->
  propAt disabled (document (pageLoad d)) s = Some true /\
  propAt disabled (document (pageLoad d)) e = Some true /\
  propAt disabled (document (pageLoad d)) b = Some true.
Proof.
  intros Hs He Hb Ha Hvid. unfold pageLoad.
  pose proof (wf_before_trimming d) as Hw. revert Hw.
  generalize (initializeFileUpload (initializeTabNavigation (emptyWorld d))) as w.
  intros w Hw. unfold initializeVideoTrimming, callInitializeVideoTrimming.
  rewrite !(getElementById_ids _ d (document w)) by apply Hw.
  rewrite Hs, He, Hb, Ha, Hvid.
  pose proof (load_alloc JNull w) as Hload.
  unfold alloc in *. simpl in *. rewrite Hload. simpl.
  apply getElementById_lt in Hs, He, Hb.
  rewrite <- (wellFormed_length d w Hw) in Hs, He, Hb.
  repeat split.
  - apply propAt_alter_const; [done|]. apply propAt_alter_const; [done|].
    by apply propAt_alter_set.
  - apply propAt_alter_const; [done|]. apply propAt_alter_set; [done|].
    by rewrite length_alter.
  - apply propAt_alter_set; [done|]. by rewrite !length_alter.
Qed.

(** X16: when one of the five elements of the trim form is missing,
    [initializeVideoTrimming] registers no listener and enables or disables
    nothing, whatever file name it is given: it only creates its variable. *)
Theorem X16_trimming_needs_its_five_elements v w id :
  id ∈ ["start-second"; "end-second"; "trim-video-button";
        "video-preview-area"; "video-preview"] ->
  getElementById id (document w) = None ->
  document (initializeVideoTrimming v w) = document w /\
  listeners (initializeVideoTrimming v w) = listeners w /\
  pending (initializeVideoTrimming v w) = pending w /\
  effects (initializeVideoTrimming v w) = effects w.
Proof.
  intros Hin Hnone. unfold initializeVideoTrimming, callInitializeVideoTrimming, alloc.
  repeat (apply elem_of_cons in Hin as [->|Hin]);
    [rewrite Hnone; by repeat case_match.. | by apply elem_of_nil in Hin].
Qed.

(** X18: when one of the five elements of the upload form is missing,
    [initializeFileUpload] registers no listener and disables nothing: it
    only creates its variable. *)
Theorem X18_upload_needs_its_five_elements w id :
  id ∈ ["video-file-input"; "upload-video-button"; "video-preview-area";
        "video-preview"; "video-metadata"] ->
  getElementById id (document w) = None ->
  document (initializeFileUpload w) = document w /\
  listeners (initializeFileUpload w) = listeners w /\
  pending (initializeFileUpload w) = pending w /\
  effects (initializeFileUpload w) = effects w.
Proof.
  intros Hin Hnone. unfold initializeFileUpload, alloc.
  repeat (apply elem_of_cons in Hin as [->|Hin]);
    [rewrite Hnone; by repeat case_match.. | by apply elem_of_nil in Hin].
Qed.

End Load.

(** ** Tab clicks, element by element *)

Lemma remove_idemp cls l : remove cls (remove cls l) = remove cls l.
Proof.
  unfold remove. induction l as [|x l IH]; simpl; [done|].
  destruct (String.eqb cls x) eqn:Hx; simpl; [done|]. by rewrite Hx, IH.
Qed.

Lemma remove_add cls l : remove cls (add cls l) = remove cls l.
Proof.
  unfold add. destruct (contains cls l); [done|].
  unfold remove. rewrite List.filter_app. simpl.
  by rewrite String.eqb_refl, app_nil_r.
Qed.

Lemma add_idemp cls l : add cls (add cls l) = add cls l.
Proof. unfold add at 1. by rewrite contains_add_same. Qed.

Lemma tabClasses_idemp b1 b2 b3 l :
  tabClasses b1 b2 b3 (tabClasses b1 b2 b3 l) = tabClasses b1 b2 b3 l.
Proof.
  unfold tabClasses.
  destruct b1, b2, b3;
    by rewrite ?add_idemp, ?remove_add, ?remove_idemp, ?add_idemp.
Qed.

Lemma remove_tabClasses b1 b2 b3 l :
  remove "active" (tabClasses b1 b2 b3 l) = remove "active" l.
Proof.
  unfold tabClasses. destruct b1, b2, b3; by rewrite ?remove_add, ?remove_idemp.
Qed.

Lemma with_classList_ext f g e :
  (forall l, f l = g l) -> with_classList f e = with_classList g e.
Proof. intros Hfg. unfold with_classList. by rewrite Hfg. Qed.

Lemma with_classList_id e : with_classList (fun l => l) e = e.
Proof. by destruct e. Qed.

Lemma lookup_alter_classes g j (d : Document) i :
  alter (with_classList g) j d !! i =
    with_classList (if bool_decide (i = j) then g else fun l => l) <$> d !! i.
Proof.
  case_bool_decide as Hij.
  - subst. by rewrite list_lookup_alter_eq.
  - rewrite list_lookup_alter_ne by done.
    destruct (d !! i) as [e|]; simpl; [|done]. by rewrite with_classList_id.
Qed.

Lemma lookup_foldl_remove cls l (d : Document) i :
  foldl (fun d t => classList_remove cls t d) d l !! i =
    with_classList (if bool_decide (i ∈ l) then remove cls else fun l => l) <$> d !! i.
Proof.
  revert d. induction l as [|t l IH]; intros d; simpl.
  - destruct (d !! i) as [e|]; simpl; [|done]. by rewrite with_classList_id.
  - rewrite IH. unfold classList_remove. rewrite lookup_alter_classes.
    destruct (d !! i) as [e|]; simpl; [|done]. f_equal.
    unfold with_classList. simpl. f_equal.
    destruct (decide (i = t)) as [->|Hne].
    + rewrite (bool_decide_eq_true_2 (t = t)) by done.
      rewrite (bool_decide_eq_true_2 (t ∈ t :: l)) by (apply elem_of_cons; by left).
      case_bool_decide; [apply remove_idemp | done].
    + rewrite (bool_decide_eq_false_2 (i = t)) by done.
      destruct (decide (i ∈ l)) as [Hin|Hnin].
      * rewrite !bool_decide_eq_true_2; [done | apply elem_of_cons; by right | done].
      * rewrite !bool_decide_eq_false_2; [done | | done].
        intros [?|?]%elem_of_cons; done.
Qed.

(** Every element after a tab click: itself, but for its class list. *)
Lemma lookup_tabClickHandler navTabs tabContents tab (d : Document) i :
  tabClickHandler navTabs tabContents tab d !! i =
    with_classList
      (tabClasses (bool_decide (i ∈ navTabs) || bool_decide (i ∈ tabContents))
                  (bool_decide (i = tab))
                  (bool_decide (tabTarget d tab = Some i))) <$> d !! i.
Proof.
  unfold tabClickHandler, showTarget.
  set (d2 := foldl _ (foldl _ d navTabs) tabContents).
  assert (tabTarget (classList_add "active" tab d2) tab = tabTarget d tab) as ->.
  { apply tabTarget_ext.
    - rewrite ids_classList_add. subst d2. by rewrite !ids_foldl_remove.
    - unfold classList_add. rewrite propAt_alter_keep by done.
      subst d2. by rewrite !propAt_foldl_remove by done. }
  assert (classList_add "active" tab d2 !! i =
            with_classList
              (tabClasses (bool_decide (i ∈ navTabs) || bool_decide (i ∈ tabContents))
                          (bool_decide (i = tab)) false) <$> d !! i) as Hd3.
  { unfold classList_add. rewrite lookup_alter_classes. subst d2.
    rewrite !lookup_foldl_remove.
    destruct (d !! i) as [e|]; simpl; [|done]. f_equal.
    unfold with_classList, tabClasses. simpl. f_equal.
    destruct (bool_decide (i ∈ navTabs)), (bool_decide (i ∈ tabContents)),
      (bool_decide (i = tab)); simpl; by rewrite ?remove_idemp. }
  destruct (tabTarget d tab) as [t|] eqn:Ht.
  - unfold classList_add at 1. rewrite lookup_alter_classes, Hd3.
    destruct (d !! i) as [e|]; simpl; [|done]. f_equal.
    unfold with_classList, tabClasses. simpl. f_equal.
    destruct (decide (i = t)) as [->|Hne].
    + rewrite (bool_decide_eq_true_2 (t = t)) by done.
      by rewrite (bool_decide_eq_true_2 (Some t = Some t)).
    + rewrite (bool_decide_eq_false_2 (i = t)) by done.
      rewrite (bool_decide_eq_false_2 (Some t = Some i)); [done|]. by intros [= ->].
  - rewrite Hd3. by rewrite (bool_decide_eq_false_2 (None = Some i)).
Qed.

(** X19: a second click on the same tab changes nothing: the document after
    two clicks is the document after one. *)
Theorem X19_tab_click_idempotent (d : Document) (tab : nat) :
  clickTab tab (clickTab tab d) = clickTab tab d.
Proof.
  assert (forall cls, cls <> "active" ->
            querySelectorAll cls (clickTab tab d) = querySelectorAll cls d) as Hq.
  { intros cls Hcls. apply querySelectorAll_ext; [apply length_tabClickHandler|].
    intros i. by apply hasClass_tabClickHandler_other. }
  assert (tabTarget (clickTab tab d) tab = tabTarget d tab) as Ht.
  { apply tabTarget_ext; [apply ids_tabClickHandler|].
    unfold propAt, clickTab. rewrite lookup_tabClickHandler.
    by destruct (d !! tab). }
  apply list_eq. intros i. unfold clickTab at 1. rewrite !Hq by done.
  rewrite lookup_tabClickHandler, Ht. unfold clickTab. rewrite lookup_tabClickHandler.
  destruct (d !! i) as [e|]; simpl; [|done]. f_equal.
  unfold with_classList. simpl. f_equal. apply tabClasses_idemp.
Qed.

(** X20: a tab click changes nothing but which elements carry the class
    'active': with that class taken off every element, the document after
    the click is the document before, element by element and property by
    property, whatever node lists the listener holds. *)
Theorem X20_tab_click_changes_only_active navTabs tabContents tab (d : Document) :
  (with_classList (remove "active") <$> tabClickHandler navTabs tabContents tab d) =
  (with_classList (remove "active") <$> d).
Proof.
  apply list_eq. intros i. rewrite !list_lookup_fmap, lookup_tabClickHandler.
  destruct (d !! i) as [e|]; simpl; [|done]. f_equal.
  unfold with_classList. simpl. f_equal. apply remove_tabClasses.
Qed.

(** ** The tab the page opens on *)

Lemma head_filter_Some {A} (f : A -> bool) l x :
  head (List.filter f l) = Some x -> f x = true /\ x ∈ l.
Proof.
  induction l as [|y l IH]; simpl; [done|].
  destruct (f y) eqn:Hy; simpl.
  - intros [= ->]. split; [done|]. apply elem_of_cons. by left.
  - intros [Hx Hin]%IH. split; [done|]. apply elem_of_cons. by right.
Qed.

Lemma hasClass_add_mono cls c j (d : Document) i :
  hasClass c d i = true -> hasClass c (classList_add cls j d) i = true.
Proof.
  intros Hc. destruct (decide (j < length d)) as [Hj|Hj].
  - rewrite hasClass_add by done. by destruct (decide (c = cls /\ i = j)).
  - by rewrite hasClass_add_ge by lia.
Qed.

Lemma hasClass_showTarget_mono c tab (d : Document) i :
  hasClass c d i = true -> hasClass c (showTarget tab d) i = true.
Proof.
  intros Hc. unfold showTarget. destruct (tabTarget d tab); [|done].
  by apply hasClass_add_mono.
Qed.

Lemma hasClass_showTarget tab (d : Document) c :
  tabTarget d tab = Some c -> hasClass "active" (showTarget tab d) c = true.
Proof.
  intros Ht. unfold showTarget. rewrite Ht.
  rewrite hasClass_add by (by eapply tabTarget_lt). by rewrite decide_True.
Qed.

Lemma remove_showTarget tab (d : Document) :
  (with_classList (remove "active") <$> showTarget tab d) =
  (with_classList (remove "active") <$> d).
Proof.
  unfold showTarget. destruct (tabTarget d tab) as [c|]; [|done].
  apply list_eq. intros i. unfold classList_add.
  rewrite !list_lookup_fmap, lookup_alter_classes.
  destruct (d !! i) as [e|]; simpl; [|done]. f_equal.
  unfold with_classList. simpl. f_equal.
  case_bool_decide; [apply remove_add | done].
Qed.

Section TabInitialisation.
Context `{Host}.

Lemma initializeTabNavigation_document w :
  document (initializeTabNavigation w) =
    match querySelector2 "nav-tab" "active" (document w) with
    | Some defaultTab => showTarget defaultTab (document w)
    | None =>
        match querySelectorAll "nav-tab" (document w) with
        | first :: _ => showTarget first (classList_add "active" first (document w))
        | [] => document w
        end
    end.
Proof.
  unfold initializeTabNavigation.
  destruct (register_tabs_frame (document w) (querySelectorAll "nav-tab" (document w))
              (querySelectorAll "tab-content" (document w))
              (querySelectorAll "nav-tab" (document w)) w) as (Hd & _).
  simpl in Hd. revert Hd.
  match goal with |- context [foldl ?f w ?ts] => generalize (foldl f w ts) as w1 end.
  intros w1 Hd. rewrite Hd.
  destruct (querySelector2 "nav-tab" "active" (document w)) as [t|];
    [|destruct (querySelectorAll "nav-tab" (document w)) as [|t ts]]; simpl;
    by rewrite ?Hd.
Qed.

(** X21: when the document has a nav-tab, [initializeTabNavigation] leaves
    the page with its default tab active (the first nav-tab that was active
    or, without one, the first nav-tab) and with the element that tab points
    at active; without any nav-tab it leaves the document as it is. *)
Theorem X21_default_tab_shown w :
  match defaultTab (document w) with
  | Some t =>
      t ∈ querySelectorAll "nav-tab" (document w) /\
      hasClass "active" (document (initializeTabNavigation w)) t = true /\
      (forall c, tabTarget (document w) t = Some c ->
         hasClass "active" (document (initializeTabNavigation w)) c = true)
  | None =>
      querySelectorAll "nav-tab" (document w) = [] /\
      document (initializeTabNavigation w) = document w
  end.
Proof.
  rewrite initializeTabNavigation_document. unfold defaultTab.
  destruct (querySelector2 "nav-tab" "active" (document w)) as [t|] eqn:Hq.
  - apply head_filter_Some in Hq as [[Hnav Hact]%andb_prop _].
    split; [by apply elem_of_querySelectorAll|]. split.
    + by apply hasClass_showTarget_mono.
    + intros c Hc. by apply hasClass_showTarget.
  - destruct (querySelectorAll "nav-tab" (document w)) as [|t ts] eqn:Hnav; [done|].
    simpl.
    assert (t ∈ querySelectorAll "nav-tab" (document w)) as Hin.
    { rewrite Hnav. apply elem_of_cons. by left. }
    split; [by rewrite <- Hnav|].
    apply elem_of_querySelectorAll, hasClass_lt in Hin.
    split.
    + apply hasClass_showTarget_mono. rewrite hasClass_add by done.
      by rewrite decide_True.
    + intros c Hc. apply hasClass_showTarget.
      rewrite <- Hc. apply tabTarget_ext; [apply ids_classList_add|].
      unfold classList_add. by apply propAt_alter_keep.
Qed.

(** X22: [initializeTabNavigation] gives every nav-tab one click listener,
    in document order, each holding the same two node lists; it takes no
    class off any element and changes nothing of the document but which
    elements carry 'active'; it shows no alert, sends no request and creates
    no variable. *)
Theorem X22_tab_initialisation w :
  listeners (initializeTabNavigation w) =
    (listeners w ++
     (tabListener (querySelectorAll "nav-tab" (document w))
                  (querySelectorAll "tab-content" (document w))
        <$> querySelectorAll "nav-tab" (document w)))%list /\
  (forall cls i, hasClass cls (document w) i = true ->
     hasClass cls (document (initializeTabNavigation w)) i = true) /\
  (with_classList (remove "active") <$> document (initializeTabNavigation w)) =
    (with_classList (remove "active") <$> document w) /\
  heap (initializeTabNavigation w) = heap w /\
  pending (initializeTabNavigation w) = pending w /\
  effects (initializeTabNavigation w) = effects w.
Proof.
  split; [|split; [|split; [|split; [|split]]]].
  - unfold initializeTabNavigation.
    pose proof (register_tabs_listeners (querySelectorAll "nav-tab" (document w))
              (querySelectorAll "tab-content" (document w))
              (querySelectorAll "nav-tab" (document w)) w) as Hl.
    simpl in Hl. revert Hl.
    match goal with |- context [foldl ?f w ?ts] => generalize (foldl f w ts) as w1 end.
    intros w1 Hl. by repeat case_match.
  - intros cls i Hc. rewrite initializeTabNavigation_document.
    repeat case_match; try done.
    + by apply hasClass_showTarget_mono.
    + by apply hasClass_showTarget_mono, hasClass_add_mono.
  - rewrite initializeTabNavigation_document.
    repeat case_match; try done; rewrite remove_showTarget; [done|].
    apply list_eq. intros i. unfold classList_add.
    rewrite !list_lookup_fmap, lookup_alter_classes.
    destruct (document w !! i) as [e|]; simpl; [|done]. f_equal.
    unfold with_classList. simpl. f_equal.
    case_bool_decide; [apply remove_add | done].
  - by destruct (initializeTabNavigation_frame (document w) w) as (_ & -> & _).
  - by destruct (initializeTabNavigation_frame (document w) w) as (_ & _ & -> & _).
  - apply effects_initializeTabNavigation.
Qed.

End TabInitialisation.

(** ** The further properties on the sample page *)

Lemma X1_upload_click_without_file_witness :
  files (elementAt (pageLoad samplePage) (upload.videoFileInput sampleUploadClosure)) = [] /\
  onlyAlerts "Please select a video file to upload." (pageLoad samplePage)
    (uploadClickHandler sampleUploadClosure (pageLoad samplePage)).
Proof.
  assert (files (elementAt (pageLoad samplePage)
                   (upload.videoFileInput sampleUploadClosure)) = []) as Hf
    by (vm_compute; reflexivity).
  split; [exact Hf|].
  exact (X1_upload_click_without_file sampleUploadClosure (pageLoad samplePage) Hf).
Defined.

Lemma X2_upload_click_sends_first_file_witness :
  files (elementAt twoFilesChosen (upload.videoFileInput sampleUploadClosure))
    = [sampleFile "a.mp4"; sampleFile "b.mp4"] /\
  effects (uploadClickHandler sampleUploadClosure twoFilesChosen)
    = (effects twoFilesChosen ++
       [Fetch "/upload_video" (FormData [("video", sampleFile "a.mp4")])])%list.
Proof.
  assert (files (elementAt twoFilesChosen (upload.videoFileInput sampleUploadClosure))
            = [sampleFile "a.mp4"; sampleFile "b.mp4"]) as Hf
    by (vm_compute; reflexivity).
  assert (upload.uploadButton sampleUploadClosure < length (document twoFilesChosen))
    as Hb by (vm_compute; lia).
  split; [exact Hf|].
  exact (proj1 (X2_upload_click_sends_first_file sampleUploadClosure twoFilesChosen
                  (sampleFile "a.mp4") [sampleFile "b.mp4"] Hf Hb)).
Defined.

Lemma X3_file_change_witness :
  upload.uploadButton sampleUploadClosure < length (document twoFilesChosen) /\
  heap (fileChangeHandler sampleUploadClosure twoFilesChosen) = heap twoFilesChosen /\
  effects (fileChangeHandler sampleUploadClosure twoFilesChosen) = effects twoFilesChosen.
Proof.
  assert (upload.uploadButton sampleUploadClosure < length (document twoFilesChosen))
    as Hb by (vm_compute; lia).
  assert (upload.videoElement sampleUploadClosure < length (document twoFilesChosen))
    as Hv by (vm_compute; lia).
  assert (upload.videoPreviewArea sampleUploadClosure < length (document twoFilesChosen))
    as Ha by (vm_compute; lia).
  assert (upload.videoMetadata sampleUploadClosure < length (document twoFilesChosen))
    as Hm by (vm_compute; lia).
  pose proof (X3_file_change sampleUploadClosure twoFilesChosen Hb Hv Ha Hm) as Hx.
  cbv zeta in Hx. destruct Hx as (_ & _ & _ & _ & Hheap & _ & _ & Heff).
  split; [exact Hb|]. split; [exact Hheap | exact Heff].
Defined.

Lemma X5_trim_click_accepted_witness :
  rejection sampleTrimClosure (sampleRange "1" "2") = None /\
  pending (trimClickHandler sampleTrimClosure (sampleRange "1" "2"))
    = (pending (sampleRange "1" "2") ++ [TrimChain sampleTrimClosure])%list.
Proof.
  assert (rejection sampleTrimClosure (sampleRange "1" "2") = None) as Hr
    by (vm_compute; reflexivity).
  assert (trim.trimVideoButton sampleTrimClosure < length (document (sampleRange "1" "2")))
    as Hb by (vm_compute; lia).
  split; [exact Hr|].
  exact (proj1 (proj2 (X5_trim_click_accepted sampleTrimClosure (sampleRange "1" "2")
                         Hr Hb))).
Defined.

Lemma X7_ok_reply_announced_witness :
  exists rest,
    effects (settle (UploadChain sampleUploadClosure)
               (Response true (Json (JObj [("success", JBool true);
                                           ("filename", JStr "a.mp4")]))) uploading) =
      (effects uploading ++ Alert "File uploaded successfully!" :: rest)%list.
Proof.
  apply (X7_ok_reply_announced (UploadChain sampleUploadClosure)
           (JObj [("success", JBool true); ("filename", JStr "a.mp4")]) uploading).
  intros Heq. discriminate Heq.
Defined.

Lemma X8_rejection_announced_witness :
  effects (settle (TrimChain sampleTrimClosure)
             (Response false (Json (JObj [("message", JStr "Invalid time range")])))
             trimming) =
    (effects trimming ++
     [Alert (failureText (TrimChain sampleTrimClosure) ++ ": " ++
             errorText (default conversionMessage
                          (toString (or_else (field "message"
                                                (JObj [("message", JStr "Invalid time range")]))
                                             (JStr (failureText (TrimChain sampleTrimClosure)))))))])%list.
Proof.
  apply (proj2 (X8_rejection_announced (TrimChain sampleTrimClosure) trimming)).
  intros Heq. discriminate Heq.
Defined.

Lemma X9_failure_touches_only_the_button_witness :
  succeeds (filenameKey (UploadChain sampleUploadClosure)) (refusal "No file part") = false /\
  heap (settle (UploadChain sampleUploadClosure) (refusal "No file part") uploading)
    = heap uploading.
Proof.
  assert (succeeds (filenameKey (UploadChain sampleUploadClosure))
            (refusal "No file part") = false) as Hs by (vm_compute; reflexivity).
  split; [exact Hs|].
  exact (proj1 (X9_failure_touches_only_the_button (UploadChain sampleUploadClosure)
                  (refusal "No file part") uploading Hs)).
Defined.

Lemma X10_other_variables_kept_witness :
  0 <> cellOf (TrimChain sampleTrimClosure) /\ 0 < length (heap trimming) /\
  heap (settle (TrimChain sampleTrimClosure)
          (okReply "trimmed_filename" "a_trim.mp4") trimming) !! 0 = heap trimming !! 0.
Proof.
  assert (0 <> cellOf (TrimChain sampleTrimClosure)) as Ha by (vm_compute; lia).
  assert (0 < length (heap trimming)) as Hl by (vm_compute; lia).
  split; [exact Ha|]. split; [exact Hl|].
  exact (X10_other_variables_kept (TrimChain sampleTrimClosure)
           (okReply "trimmed_filename" "a_trim.mp4") trimming 0 Ha Hl).
Defined.

Lemma X11_upload_button_disabled_at_load_witness :
  getElementById "upload-video-button" samplePage = Some 5 /\
  propAt disabled (document (pageLoad samplePage)) 5 = Some true.
Proof.
  split; [vm_compute; reflexivity|].
  apply (X11_upload_button_disabled_at_load samplePage 4 5 6 7 8);
    vm_compute; reflexivity.
Defined.

Lemma X15_trim_controls_disabled_at_load_witness :
  getElementById "trim-video-button" samplePage = Some 11 /\
  propAt disabled (document (pageLoad samplePage)) 11 = Some true.
Proof.
  split; [vm_compute; reflexivity|].
  apply (X15_trim_controls_disabled_at_load samplePage 9 10 11 6 7);
    vm_compute; reflexivity.
Defined.

Lemma X16_trimming_needs_its_five_elements_witness :
  getElementById "end-second" (document (emptyWorld noEndField)) = None /\
  listeners (initializeVideoTrimming (Some (JStr "a.mp4")) (emptyWorld noEndField))
    = listeners (emptyWorld noEndField).
Proof.
  assert (getElementById "end-second" (document (emptyWorld noEndField)) = None) as Hn
    by (vm_compute; reflexivity).
  assert ("end-second" ∈ ["start-second"; "end-second"; "trim-video-button";
                          "video-preview-area"; "video-preview"]) as Hin
    by (apply elem_of_cons; right; apply elem_of_cons; left; reflexivity).
  split; [exact Hn|].
  exact (proj1 (proj2 (X16_trimming_needs_its_five_elements (Some (JStr "a.mp4"))
                         (emptyWorld noEndField) "end-second" Hin Hn))).
Defined.


Lemma X18_upload_needs_its_five_elements_witness :
  getElementById "video-metadata" (document (emptyWorld (take 8 samplePage))) = None /\
  listeners (initializeFileUpload (emptyWorld (take 8 samplePage)))
    = listeners (emptyWorld (take 8 samplePage)).
Proof.
  assert (getElementById "video-metadata" (document (emptyWorld (take 8 samplePage)))
            = None) as Hn by (vm_compute; reflexivity).
  assert ("video-metadata" ∈ ["video-file-input"; "upload-video-button";
                              "video-preview-area"; "video-preview"; "video-metadata"])
    as Hin by (do 4 (apply elem_of_cons; right); apply elem_of_cons; left; reflexivity).
  split; [exact Hn|].
  exact (proj1 (proj2 (X18_upload_needs_its_five_elements
                         (emptyWorld (take 8 samplePage)) "video-metadata" Hin Hn))).
Defined.


Lemma trim_success_updates_witness :
  pending trimming !! 0 = Some (TrimChain sampleTrimClosure) /\
  heap (step trimming
          (Settle 0 (Response true (Json (JObj [("success", JBool true);
                                                ("trimmed_filename", JStr "a_trim.mp4")])))))
    !! trim.currentVideoFilename sampleTrimClosure = Some (JStr "a_trim.mp4").
Proof.
  assert (pending trimming !! 0 = Some (TrimChain sampleTrimClosure)) as Hp
    by (vm_compute; reflexivity).
  assert (trim.currentVideoFilename sampleTrimClosure < length (heap trimming)) as Hc
    by (vm_compute; lia).
  assert (trim.videoElement sampleTrimClosure < length (document trimming)) as Hv
    by (vm_compute; lia).
  split; [exact Hp|].
  exact (proj1 (trim_success_updates trimming 0 sampleTrimClosure
                  (JObj [("success", JBool true); ("trimmed_filename", JStr "a_trim.mp4")])
                  (JStr "a_trim.mp4") "Video trimmed successfully!" "a_trim.mp4"
                  Hp eq_refl eq_refl eq_refl eq_refl eq_refl Hc Hv)).
Defined.

